(** * KS1 Escrow Pay backend: a shallow embedding of the Express/Mongoose routes

    The routes are those of [src/unnamed/part_000] (first server, lines 1-238,
    the only one with the delete route); [src/server.js] has the same
    handlers for login, transaction creation and the status updates.

    - JavaScript numbers are IEEE-754 binary64 values ([spec_float] with
      precision 53 and maximal exponent 1024).
    - The Mongo collections are lists in insertion (natural) order; a
      [findOne...] query acts on the first matching document.
    - Every Mongoose call that reaches the database consumes one entry of a
      fault schedule: [true] makes it fail with a storage error, [false] or an
      exhausted schedule lets it run.  Casting and validation errors are raised
      client side, before the database is contacted.
    - The random parts ([generateTxID], bcrypt) are inputs. *)

From Stdlib Require Import String Ascii List ZArith NArith Bool Lia.
From Stdlib Require Import Floats.SpecFloat.
From Stdlib Require Import Sorting.Permutation Sorting.Sorted.
Import ListNotations.

Open Scope string_scope.
Open Scope Z_scope.
Open Scope list_scope.

(** ** JavaScript numbers *)

Definition js_number := spec_float.

Definition js_prec : Z := 53.
Definition js_emax : Z := 1024.

Definition js_mul (x y : js_number) : js_number := SFmul js_prec js_emax x y.
Definition js_div (x y : js_number) : js_number := SFdiv js_prec js_emax x y.

(** The double nearest to [0.01]: 5764607523034235 * 2^-59. *)
Definition js_0_01 : js_number := S754_finite false 5764607523034235 (-59).

(** [!x] is true for [0], [-0] and [NaN]. *)
Definition js_number_truthy (x : js_number) : bool :=
  match x with
  | S754_zero _ | S754_nan => false
  | _ => true
  end.

Definition js_string_truthy (s : string) : bool := negb (String.eqb s "").

(** [Number.prototype.toFixed(2)] on a finite [m * 2^e] below [10^21]: the
    integer [n] with [n / 100] closest to [|x|], the larger one on a tie. *)
Definition round_hundredths (m : positive) (e : Z) : Z :=
  if 0 <=? e then 100 * Z.pos m * 2 ^ e
  else (200 * Z.pos m + 2 ^ (- e)) / 2 ^ (- e + 1).

Definition at_least_1e21 (m : positive) (e : Z) : bool :=
  if 0 <=? e then 10 ^ 21 <=? Z.pos m * 2 ^ e
  else 10 ^ 21 * 2 ^ (- e) <=? Z.pos m.

(** [parseFloat] of the decimal string [s n/100]: the double nearest to
    [n / 100], with the sign kept ([parseFloat("-0.00")] is [-0]). *)
Definition parse_hundredths (s : bool) (n : Z) : js_number :=
  if n =? 0 then S754_zero s
  else js_div (S754_finite s (Z.to_pos n) 0) (S754_finite false 100 0).

(** [parseFloat(x.toFixed(2))].  From [10^21] on [toFixed] gives
    [String(x)], which [parseFloat] reads back as [x]; [(-0).toFixed(2)] is
    ["0.00"]; [NaN] and the infinities round-trip. *)
Definition parseFloat_toFixed2 (x : js_number) : js_number :=
  match x with
  | S754_zero _ => S754_zero false
  | S754_finite s m e =>
      if at_least_1e21 m e then x else parse_hundredths s (round_hundredths m e)
  | _ => x
  end.

(** [const fee = parseFloat((amount * 0.01).toFixed(2));] *)
Definition compute_fee (amount : js_number) : js_number :=
  parseFloat_toFixed2 (js_mul amount js_0_01).

(** ** Decimal and hexadecimal rendering *)

Fixpoint decimal_aux (fuel : nat) (n : N) (acc : string) : string :=
  match fuel with
  | O => acc
  | S fuel' =>
      let acc' := String (ascii_of_N (48 + N.modulo n 10)) acc in
      if (n <? 10)%N then acc' else decimal_aux fuel' (N.div n 10) acc'
  end.

Definition decimal (n : N) : string := decimal_aux 32 n "".

(** [generateTxID]: [`KS1-${Math.floor(100000 + Math.random() * 900000)}`];
    [draw] is [Math.floor(Math.random() * 900000)]. *)
Definition generateTxID (draw : N) : string :=
  String.append "KS1-" (decimal (100000 + draw)).

(** ** Object ids *)

Definition ObjectId := string.

Definition hex_digit (d : N) : ascii :=
  ascii_of_N (if (d <? 10)%N then 48 + d else 87 + d)%N.

Fixpoint hex_fixed (k : nat) (n : N) (acc : string) : string :=
  match k with
  | O => acc
  | S k' => hex_fixed k' (N.div n 16) (String (hex_digit (N.modulo n 16)) acc)
  end.

(** The object id the driver assigns to the [n]-th inserted document. *)
Definition new_object_id (n : N) : ObjectId := hex_fixed 24 n "".

Definition is_hex_char (c : ascii) : bool :=
  let n := N_of_ascii c in
  ((48 <=? n) && (n <=? 57) || (97 <=? n) && (n <=? 102) || (65 <=? n) && (n <=? 70))%N.

Definition lower_hex_char (c : ascii) : ascii :=
  let n := N_of_ascii c in
  if ((65 <=? n) && (n <=? 70))%N then ascii_of_N (n + 32) else c.

Fixpoint all_chars (f : ascii -> bool) (s : string) : bool :=
  match s with
  | EmptyString => true
  | String c s' => f c && all_chars f s'
  end.

Fixpoint map_chars (f : ascii -> ascii) (s : string) : string :=
  match s with
  | EmptyString => EmptyString
  | String c s' => String (f c) (map_chars f s')
  end.

(** Casting a route parameter to an ObjectId: 24 hexadecimal digits (the
    12-byte raw string form is not modelled); failure is a [CastError]. *)
Definition cast_object_id (s : string) : option ObjectId :=
  if (String.length s =? 24)%nat && all_chars is_hex_char s
  then Some (map_chars lower_hex_char s) else None.

(** ** Data model (the Mongoose schemas) *)

Inductive tx_status :=
| pending_payment | funded | delivered | completed | disputed | cancelled.

Inductive commission_status := pending | paid.

Record User := mkUser {
  user_id : ObjectId;
  phone_number : string;
  password : string;
  user_created_at : Z
}.

Record Transaction := mkTransaction {
  tx_id : ObjectId;
  transaction_id : string;
  buyer_id : string;
  buyer_phone : string;
  seller_phone : string;
  amount : js_number;
  fee : js_number;
  status : tx_status;
  description : option string;
  created_at : Z
}.

Record Payment := mkPayment {
  payment_id : ObjectId;
  pay_transaction_id : string;
  momo_reference : option string;
  verified : bool;
  pay_created_at : Z
}.

Record Commission := mkCommission {
  commission_id : ObjectId;
  com_transaction_id : string;
  com_amount : js_number;
  com_status : commission_status;
  destination_number : string
}.

Record Store := mkStore {
  users : list User;
  transactions : list Transaction;
  payments : list Payment;
  commissions : list Commission;
  next_oid : N
}.

Record World := mkWorld {
  store : Store;
  faults : list bool;
  now : Z
}.

Definition set_users (l : list User) (s : Store) : Store :=
  mkStore l (transactions s) (payments s) (commissions s) (next_oid s).
Definition set_transactions (l : list Transaction) (s : Store) : Store :=
  mkStore (users s) l (payments s) (commissions s) (next_oid s).
Definition set_payments (l : list Payment) (s : Store) : Store :=
  mkStore (users s) (transactions s) l (commissions s) (next_oid s).
Definition set_commissions (l : list Commission) (s : Store) : Store :=
  mkStore (users s) (transactions s) (payments s) l (next_oid s).
Definition bump_oid (s : Store) : Store :=
  mkStore (users s) (transactions s) (payments s) (commissions s) (N.succ (next_oid s)).

Definition set_tx_status (st : tx_status) (t : Transaction) : Transaction :=
  mkTransaction (tx_id t) (transaction_id t) (buyer_id t) (buyer_phone t)
    (seller_phone t) (amount t) (fee t) st (description t) (created_at t).
Definition set_verified (b : bool) (p : Payment) : Payment :=
  mkPayment (payment_id p) (pay_transaction_id p) (momo_reference p) b (pay_created_at p).
Definition set_com_status (st : commission_status) (c : Commission) : Commission :=
  mkCommission (commission_id c) (com_transaction_id c) (com_amount c) st
    (destination_number c).

(** ** Collection primitives *)

(** [findOneAndUpdate]: the first match is updated; the result is the
    document before the update, [null] when nothing matches. *)
Fixpoint update_first {A} (p : A -> bool) (f : A -> A) (l : list A)
  : option A * list A :=
  match l with
  | [] => (None, [])
  | x :: l' =>
      if p x then (Some x, f x :: l')
      else let '(r, l'') := update_first p f l' in (r, x :: l'')
  end.

(** [findOneAndDelete]: the first match is removed. *)
Fixpoint delete_first {A} (p : A -> bool) (l : list A) : option A * list A :=
  match l with
  | [] => (None, [])
  | x :: l' =>
      if p x then (Some x, l')
      else let '(r, l'') := delete_first p l' in (r, x :: l'')
  end.

(** ** The database monad *)

Inductive db_error := StorageError | DuplicateKey | ValidationError | CastError.

Definition M (A : Type) : Type := World -> (db_error + A) * World.

Definition ret {A} (a : A) : M A := fun w => (inr a, w).

Definition bind {A B} (m : M A) (k : A -> M B) : M B :=
  fun w => match m w with
           | (inl e, w') => (inl e, w')
           | (inr a, w') => k a w'
           end.

Definition throw {A} (e : db_error) : M A := fun w => (inl e, w).

Notation "x <- m ;; k" := (bind m (fun x => k))
  (at level 61, m at next level, right associativity).

Definition get_now : M Z := fun w => (inr (now w), w).

Definition set_faults (fs : list bool) (w : World) : World :=
  mkWorld (store w) fs (now w).
Definition set_store (s : Store) (w : World) : World :=
  mkWorld s (faults w) (now w).

(** One round trip to the database: it fails when the fault schedule says
    so, otherwise [f] runs on the store. *)
Definition db {A} (f : Store -> db_error + (A * Store)) : M A :=
  fun w =>
    match faults w with
    | true :: fs => (inl StorageError, set_faults fs w)
    | fs =>
        let w0 := set_faults (tl fs) w in
        match f (store w) with
        | inl e => (inl e, w0)
        | inr (a, s') => (inr a, set_store s' w0)
        end
    end.

(** ** Models (Mongoose calls) *)

Definition user_find_one_by_phone (phone : string) : M (option User) :=
  db (fun s => inr (find (fun u => String.eqb (phone_number u) phone) (users s), s)).

Definition user_find_by_id (id : string) : M (option User) :=
  match cast_object_id id with
  | None => throw CastError
  | Some oid => db (fun s => inr (find (fun u => String.eqb (user_id u) oid) (users s), s))
  end.

(** [phone_number] carries a unique index. *)
Definition user_create (phone hashed : string) : M User :=
  t <- get_now ;;
  db (fun s =>
        if existsb (fun u => String.eqb (phone_number u) phone) (users s)
        then inl DuplicateKey
        else let u := mkUser (new_object_id (next_oid s)) phone hashed t in
             inr (u, bump_oid (set_users (users s ++ [u]) s))).

(** [transaction_id] carries a unique index; [status] defaults to
    [pending_payment]. *)
Definition transaction_create (txid buyer bphone seller : string)
    (amt f : js_number) (descr : option string) : M Transaction :=
  t <- get_now ;;
  db (fun s =>
        if existsb (fun x => String.eqb (transaction_id x) txid) (transactions s)
        then inl DuplicateKey
        else let x := mkTransaction (new_object_id (next_oid s)) txid buyer bphone
                        seller amt f pending_payment descr t in
             inr (x, bump_oid (set_transactions (transactions s ++ [x]) s))).

(** [status] defaults to [pending], [destination_number] to "+233240254680". *)
Definition commission_create (txid : string) (amt : js_number) : M Commission :=
  db (fun s =>
        let c := mkCommission (new_object_id (next_oid s)) txid amt pending
                   "+233240254680" in
        inr (c, bump_oid (set_commissions (commissions s ++ [c]) s))).

(** [transaction_id] is [required]: a missing or empty one fails validation
    before the insert is sent. *)
Definition payment_create (txid momo : option string) (v : bool) : M Payment :=
  match txid with
  | Some id =>
      if js_string_truthy id then
        t <- get_now ;;
        db (fun s =>
              let p := mkPayment (new_object_id (next_oid s)) id momo v t in
              inr (p, bump_oid (set_payments (payments s ++ [p]) s)))
      else throw ValidationError
  | None => throw ValidationError
  end.

Definition transaction_find_by_id_and_update (id : string) (st : tx_status)
  : M (option Transaction) :=
  match cast_object_id id with
  | None => throw CastError
  | Some oid =>
      db (fun s => let '(r, l) := update_first (fun t => String.eqb (tx_id t) oid)
                                    (set_tx_status st) (transactions s) in
                   inr (r, set_transactions l s))
  end.

Definition transaction_find_one_and_update (txid : string) (st : tx_status)
  : M (option Transaction) :=
  db (fun s => let '(r, l) := update_first (fun t => String.eqb (transaction_id t) txid)
                                (set_tx_status st) (transactions s) in
               inr (r, set_transactions l s)).

Definition payment_find_one_and_update_verified (txid : string) : M (option Payment) :=
  db (fun s => let '(r, l) := update_first (fun p => String.eqb (pay_transaction_id p) txid)
                                (set_verified true) (payments s) in
               inr (r, set_payments l s)).

Definition commission_find_one_and_update (txid : string) (st : commission_status)
  : M (option Commission) :=
  db (fun s => let '(r, l) := update_first (fun c => String.eqb (com_transaction_id c) txid)
                                (set_com_status st) (commissions s) in
               inr (r, set_commissions l s)).

Definition payment_find_one_and_delete (txid : string) : M (option Payment) :=
  db (fun s => let '(r, l) := delete_first (fun p => String.eqb (pay_transaction_id p) txid)
                                (payments s) in
               inr (r, set_payments l s)).

Definition transaction_find_one_and_delete (txid : string) : M (option Transaction) :=
  db (fun s => let '(r, l) := delete_first (fun t => String.eqb (transaction_id t) txid)
                                (transactions s) in
               inr (r, set_transactions l s)).

Definition commission_find_one_and_delete (txid : string) : M (option Commission) :=
  db (fun s => let '(r, l) := delete_first (fun c => String.eqb (com_transaction_id c) txid)
                                (commissions s) in
               inr (r, set_commissions l s)).

(** ** Responses *)

Inductive Body :=
| BSuccess (message : option string)                (** [{success: true, message?}] *)
| BLoginAdmin                                       (** [{success, user: {id: 'admin', ..., isAdmin: true}}] *)
| BLoginUser (id : ObjectId) (phone : string)       (** [{success, user: {id, phone_number}}] *)
| BTransaction (t : Transaction)                    (** [{success, transaction}] *)
| BTransactions (ts : list Transaction)             (** a bare array *)
| BAdminData (ts : list Transaction) (ps : list Payment) (cs : list Commission)
| BError (msg : string).                            (** [{error: msg}] *)

Record Response := mkResponse { code : Z; body : Body }.

Definition ok (b : Body) : Response := mkResponse 200 b.
Definition fail (c : Z) (msg : string) : Response := mkResponse c (BError msg).

(** A route: [try { ... } catch (err) { ... }] around a database program. *)
Definition handle (m : M Response) (on_error : db_error -> Response)
  : World -> Response * World :=
  fun w => match m w with
           | (inl e, w') => (on_error e, w')
           | (inr r, w') => (r, w')
           end.

(** [.sort({ created_at: -1 })], stable. *)
Fixpoint insert_newest_first (t : Transaction) (l : list Transaction) : list Transaction :=
  match l with
  | [] => [t]
  | x :: l' => if created_at x <? created_at t then t :: l
               else x :: insert_newest_first t l'
  end.

Definition sort_newest_first (l : list Transaction) : list Transaction :=
  fold_right insert_newest_first [] l.

(** ** Routes *)

Section Routes.

(** [bcrypt.compare(plain, hash)]. *)
Variable bcrypt_compare : string -> string -> bool.

(** 1. [POST /api/register]; [hashed] is the result of [bcrypt.hash]. *)
Definition register (phone pw : option string) (hashed : string)
  : World -> Response * World :=
  handle
    (match phone, pw with
     | Some p, Some q =>
         if js_string_truthy p && js_string_truthy q then
           _ <- user_create p hashed ;; ret (ok (BSuccess (Some "Welcome to Alkebulan.")))
         else ret (fail 400 "Missing fields")
     | _, _ => ret (fail 400 "Missing fields")
     end)
    (fun e => match e with
              | DuplicateKey => fail 400 "Number exists"
              | _ => fail 400 "Server error"
              end).

(** 2. [POST /api/login]. *)
Definition login (phone pw : string) : World -> Response * World :=
  handle
    (if String.eqb phone "admin" && String.eqb pw "admin123" then ret (ok BLoginAdmin)
     else
       u <- user_find_one_by_phone phone ;;
       match u with
       | Some u =>
           if bcrypt_compare pw (password u)
           then ret (ok (BLoginUser (user_id u) (phone_number u)))
           else ret (fail 401 "Invalid credentials")
       | None => ret (fail 401 "Invalid credentials")
       end)
    (fun _ => fail 500 "Server error").

End Routes.

Record CreateRequest := mkCreateRequest {
  req_buyer_id : option string;
  req_seller_phone : option string;
  req_amount : option js_number;
  req_description : option string
}.

(** 3. [POST /api/transactions]: [if (!buyer_id || !seller_phone || !amount)]
    answers 400; then the buyer lookup, the fee, the id, and the two inserts. *)
Definition create_transaction (req : CreateRequest) (draw : N)
  : World -> Response * World :=
  handle
    (match req_buyer_id req, req_seller_phone req, req_amount req with
     | Some b, Some sp, Some a =>
         if js_string_truthy b && js_string_truthy sp && js_number_truthy a then
           buyer <- user_find_by_id b ;;
           let bphone := match buyer with Some u => phone_number u | None => "Unknown" end in
           let f := compute_fee a in
           let txid := generateTxID draw in
           t <- transaction_create txid b bphone sp a f (req_description req) ;;
           _ <- commission_create txid f ;;
           ret (ok (BTransaction t))
         else ret (fail 400 "Missing fields")
     | _, _, _ => ret (fail 400 "Missing fields")
     end)
    (fun _ => fail 500 "Failed to create transaction").

(** 4. [GET /api/transactions/:userId]. *)
Definition list_user_transactions (user : string) : World -> Response * World :=
  handle
    (ts <- db (fun s => inr (filter (fun t => String.eqb (buyer_id t) user) (transactions s), s)) ;;
     ret (ok (BTransactions (sort_newest_first ts))))
    (fun _ => fail 500 "Fetch failed").

(** 5. [POST /api/payments/confirm]. *)
Definition submit_payment (txid momo : option string) : World -> Response * World :=
  handle
    (_ <- payment_create txid momo false ;; ret (ok (BSuccess None)))
    (fun _ => fail 500 "Payment submit failed").

(** 6. [PUT /api/transactions/:id/confirm-delivery]. *)
Definition confirm_delivery (id : string) : World -> Response * World :=
  handle
    (_ <- transaction_find_by_id_and_update id delivered ;; ret (ok (BSuccess None)))
    (fun _ => fail 500 "Confirm failed").

(** 7. [PUT /api/transactions/:id/dispute]. *)
Definition open_dispute (id : string) : World -> Response * World :=
  handle
    (_ <- transaction_find_by_id_and_update id disputed ;; ret (ok (BSuccess None)))
    (fun _ => fail 500 "Dispute failed").

(** 8. [GET /api/admin/data]. *)
Definition admin_data : World -> Response * World :=
  handle
    (ts <- db (fun s => inr (sort_newest_first (transactions s), s)) ;;
     ps <- db (fun s => inr (payments s, s)) ;;
     cs <- db (fun s => inr (commissions s, s)) ;;
     ret (ok (BAdminData ts ps cs)))
    (fun _ => fail 500 "Failed to load admin data").

(** 9. [PUT /api/admin/verify]. *)
Definition admin_verify (txid : string) : World -> Response * World :=
  handle
    (_ <- payment_find_one_and_update_verified txid ;;
     _ <- transaction_find_one_and_update txid funded ;;
     ret (ok (BSuccess None)))
    (fun _ => fail 500 "Verify failed").

(** 10. [PUT /api/admin/release]. *)
Definition admin_release (txid : string) : World -> Response * World :=
  handle
    (_ <- transaction_find_one_and_update txid completed ;;
     _ <- commission_find_one_and_update txid paid ;;
     ret (ok (BSuccess None)))
    (fun _ => fail 500 "Release failed").

(** 11. [PUT /api/admin/refund]. *)
Definition admin_refund (txid : string) : World -> Response * World :=
  handle
    (_ <- transaction_find_one_and_update txid cancelled ;; ret (ok (BSuccess None)))
    (fun _ => fail 500 "Refund failed").

(** 12. [DELETE /api/admin/delete-payment/:txId]. *)
Definition admin_delete_payment (txid : string) : World -> Response * World :=
  handle
    (_ <- payment_find_one_and_delete txid ;;
     _ <- transaction_find_one_and_delete txid ;;
     _ <- commission_find_one_and_delete txid ;;
     ret (ok (BSuccess (Some "Deleted successfully"))))
    (fun _ => fail 500 "Failed to delete").

(** ** Requests and runs *)

Inductive Op :=
| OpRegister (phone pw : option string) (hashed : string)
| OpLogin (phone pw : string)
| OpCreateTransaction (req : CreateRequest) (draw : N)
| OpListUserTransactions (user : string)
| OpSubmitPayment (txid momo : option string)
| OpConfirmDelivery (id : string)
| OpOpenDispute (id : string)
| OpAdminData
| OpAdminVerify (txid : string)
| OpAdminRelease (txid : string)
| OpAdminRefund (txid : string)
| OpAdminDelete (txid : string).

Definition exec_op (cmp : string -> string -> bool) (o : Op) : World -> Response * World :=
  match o with
  | OpRegister p q h => register p q h
  | OpLogin p q => login cmp p q
  | OpCreateTransaction r d => create_transaction r d
  | OpListUserTransactions u => list_user_transactions u
  | OpSubmitPayment t m => submit_payment t m
  | OpConfirmDelivery i => confirm_delivery i
  | OpOpenDispute i => open_dispute i
  | OpAdminData => admin_data
  | OpAdminVerify t => admin_verify t
  | OpAdminRelease t => admin_release t
  | OpAdminRefund t => admin_refund t
  | OpAdminDelete t => admin_delete_payment t
  end.

(** The world after serving the requests one after the other. *)
Fixpoint run (cmp : string -> string -> bool) (ops : list Op) (w : World) : World :=
  match ops with
  | [] => w
  | o :: ops' => run cmp ops' (snd (exec_op cmp o w))
  end.

(** [{success: true, ...}] with status 200. *)
Definition is_success (r : Response) : bool :=
  (code r =? 200) && match body r with BError _ => false | _ => true end.

Definition empty_store : Store := mkStore [] [] [] [] 0.

(** ** The fee as the spec words it

    "amount x 0.01 rounded to 2 decimal places", on the exact value of the
    amount: the nearest double to [n / 100], where [n] is the amount rounded
    to an integer, half up or half to even. *)

Definition round_half_up_int (m : positive) (e : Z) : Z :=
  if 0 <=? e then Z.pos m * 2 ^ e
  else (2 * Z.pos m + 2 ^ (- e)) / 2 ^ (- e + 1).

Definition round_half_even_int (m : positive) (e : Z) : Z :=
  if 0 <=? e then Z.pos m * 2 ^ e
  else let q := Z.pos m / 2 ^ (- e) in
       let r := Z.pos m mod 2 ^ (- e) in
       match Z.compare (2 * r) (2 ^ (- e)) with
       | Lt => q
       | Gt => q + 1
       | Eq => if Z.even q then q else q + 1
       end.

Definition spec_fee_half_up (a : js_number) : js_number :=
  match a with
  | S754_finite s m e => parse_hundredths s (round_half_up_int m e)
  | _ => a
  end.

Definition spec_fee_half_even (a : js_number) : js_number :=
  match a with
  | S754_finite s m e => parse_hundredths s (round_half_even_int m e)
  | _ => a
  end.

(** JavaScript truthiness of an optional request field. *)
Definition present_string (o : option string) : bool :=
  match o with Some s => js_string_truthy s | None => false end.
Definition present_number (o : option js_number) : bool :=
  match o with Some x => js_number_truthy x | None => false end.

(** ** The other server versions

    [src/server.js] answers some errors differently and checks payment
    submissions; the second server of [src/unnamed/part_000] (lines 240-473)
    answers every registration error with the same 400.  Below are the routes
    whose behaviour differs from the first server's and that the data model
    above carries: both other versions store no [buyer_phone], so their
    transaction creation is left out. *)

Module ServerJs.

(** [POST /api/register] (lines 81-98): a duplicate key is a 400, any other
    error a 500. *)
Definition register (phone pw : option string) (hashed : string)
  : World -> Response * World :=
  handle
    (match phone, pw with
     | Some p, Some q =>
         if js_string_truthy p && js_string_truthy q then
           _ <- user_create p hashed ;;
           ret (ok (BSuccess (Some "Welcome to Alkebulan freedom.")))
         else ret (fail 400 "Phone and password required.")
     | _, _ => ret (fail 400 "Phone and password required.")
     end)
    (fun e => match e with
              | DuplicateKey => fail 400 "Phone number already exists."
              | _ => fail 500 "Server error during registration."
              end).

(** [POST /api/login] (lines 101-122): an unknown phone number and a wrong
    password get different messages. *)
Definition login (bcrypt_compare : string -> string -> bool) (phone pw : string)
  : World -> Response * World :=
  handle
    (if String.eqb phone "admin" && String.eqb pw "admin123" then ret (ok BLoginAdmin)
     else
       u <- user_find_one_by_phone phone ;;
       match u with
       | None => ret (fail 401 "User not found.")
       | Some u =>
           if bcrypt_compare pw (password u)
           then ret (ok (BLoginUser (user_id u) (phone_number u)))
           else ret (fail 401 "Invalid password.")
       end)
    (fun _ => fail 500 "Server error during login.").

(** [POST /api/payments/confirm] (lines 158-170):
    [if (!transaction_id || !momo_reference)] answers 400. *)
Definition submit_payment (txid momo : option string) : World -> Response * World :=
  handle
    (if present_string txid && present_string momo then
       _ <- payment_create txid momo false ;;
       ret (ok (BSuccess (Some "Payment submitted for verification.")))
     else ret (fail 400 "Missing details."))
    (fun _ => fail 500 "Failed to submit payment.").

End ServerJs.

Module SecondServer.

(** [POST /api/register] of the second server (lines 332-345): every error
    is the same 400. *)
Definition register (phone pw : option string) (hashed : string)
  : World -> Response * World :=
  handle
    (match phone, pw with
     | Some p, Some q =>
         if js_string_truthy p && js_string_truthy q then
           _ <- user_create p hashed ;;
           ret (ok (BSuccess (Some "Welcome to Alkebulan freedom.")))
         else ret (fail 400 "Phone and password required.")
     | _, _ => ret (fail 400 "Phone and password required.")
     end)
    (fun _ => fail 400 "Phone number already exists or invalid data.").

End SecondServer.

(** Reading a string of decimal digits back, most significant first. *)
Fixpoint read_decimal (s : string) (acc : N) : N :=
  match s with
  | EmptyString => acc
  | String c s' => read_decimal s' (acc * 10 + (N_of_ascii c - 48))
  end.

(** Store invariants. *)
Definition phones_unique (s : Store) : Prop := NoDup (map phone_number (users s)).
Definition txids_unique (s : Store) : Prop := NoDup (map transaction_id (transactions s)).
Definition fees_consistent (s : Store) : Prop :=
  forall t, In t (transactions s) -> fee t = compute_fee (amount t).

(** An invariant as a store relation. *)
Definition keeps (I : Store -> Prop) (s s' : Store) : Prop := I s -> I s'.

(** [t] comes before [u] in a newest-first listing. *)
Definition newer_or_same (t u : Transaction) : Prop := created_at u <= created_at t.

(** ** Sample inputs *)

Definition no_login : string -> string -> bool := fun _ _ => false.

Definition start (fs : list bool) : World := mkWorld empty_store fs 0.

Definition order_request (amt : js_number) : CreateRequest :=
  mkCreateRequest (Some (new_object_id 0)) (Some "0240000000") (Some amt) (Some "widget").

Definition js_1000 : js_number := S754_finite false 1000 0.
Definition js_1_5 : js_number := S754_finite false 3 (-1).
Definition js_minus_5 : js_number := S754_finite true 5 0.

(** The world after one order of 1000 with id draw 0, and what it stores. *)
Definition sample_world : World :=
  snd (create_transaction (order_request js_1000) 0 (start [])).

Definition sample_tx : Transaction :=
  mkTransaction (new_object_id 0) "KS1-100000" (new_object_id 0) "Unknown" "0240000000"
    js_1000 (compute_fee js_1000) pending_payment (Some "widget") 0.

Definition sample_commission : Commission :=
  mkCommission (new_object_id 1) "KS1-100000" (compute_fee js_1000) pending "+233240254680".

Definition verify_run : list Op :=
  [OpCreateTransaction (order_request js_1000) 0;
   OpSubmitPayment (Some "KS1-100000") (Some "MOMO1");
   OpAdminVerify "KS1-100000"].

(** The fields of a Transaction other than [status]. *)
Definition tx_frame (t : Transaction)
  : ObjectId * string * string * string * string * js_number * js_number
    * option string * Z :=
  (tx_id t, transaction_id t, buyer_id t, buyer_phone t, seller_phone t,
   amount t, fee t, description t, created_at t).

Definition same_tx_frames (s s' : Store) : Prop :=
  map tx_frame (transactions s') = map tx_frame (transactions s).

(** The requests other than creating and deleting a transaction. *)
Definition keeps_transactions_op (o : Op) : bool :=
  match o with
  | OpCreateTransaction _ _ | OpAdminDelete _ => false
  | _ => true
  end.

(** A payment with object id [id] is stored with [verified = true]
    (resp. [false]); a payment with object id [id] is stored. *)
Definition verified_in (s : Store) (id : ObjectId) : Prop :=
  exists p, In p (payments s) /\ payment_id p = id /\ verified p = true.
Definition unverified_in (s : Store) (id : ObjectId) : Prop :=
  exists p, In p (payments s) /\ payment_id p = id /\ verified p = false.
Definition has_payment (s : Store) (id : ObjectId) : Prop :=
  exists p, In p (payments s) /\ payment_id p = id.

(** No payment becomes verified. *)
Definition no_new_verified (s s' : Store) : Prop :=
  forall id, verified_in s' id -> verified_in s id.

(** Payments become verified only in place, and none appears. *)
Definition verified_in_place (s s' : Store) : Prop :=
  (forall id, verified_in s' id -> verified_in s id \/ has_payment s id)
  /\ (forall id, has_payment s' id -> has_payment s id).

Definition is_admin_verify (o : Op) : bool :=
  match o with OpAdminVerify _ => true | _ => false end.

(** What a created transaction and its commission look like. *)
Definition paired_commission (t : Transaction) (c : Commission) : Prop :=
  com_transaction_id c = transaction_id t /\ com_amount c = fee t /\ com_status c = pending.

(** Outcome of [create_transaction] on the collections. *)
Definition create_outcome (req : CreateRequest) (s : Store) (r : Response) (s' : Store)
  : Prop :=
  users s' = users s /\ payments s' = payments s /\
  ((exists t c, r = ok (BTransaction t) /\ transactions s' = transactions s ++ [t]
                /\ commissions s' = commissions s ++ [c] /\ paired_commission t c
                /\ status t = pending_payment
                /\ req_amount req = Some (amount t) /\ fee t = compute_fee (amount t))
   \/ ((r = fail 400 "Missing fields" \/ r = fail 500 "Failed to create transaction")
       /\ commissions s' = commissions s
       /\ (transactions s' = transactions s \/ exists t, transactions s' = transactions s ++ [t]))).

(** A store relation kept by a database program / by a route. *)
Definition preserves (R : Store -> Store -> Prop) {A} (m : M A) : Prop :=
  forall w, R (store w) (store (snd (m w))).

Definition route_preserves (R : Store -> Store -> Prop) (r : World -> Response * World) : Prop :=
  forall w, R (store w) (store (snd (r w))).

(** ** Store relations preserved by database programs *)

Section Preserves.

Variable R : Store -> Store -> Prop.
Hypothesis R_refl : forall s, R s s.
Hypothesis R_trans : forall s1 s2 s3, R s1 s2 -> R s2 s3 -> R s1 s3.

Lemma preserves_ret {A} (a : A) : preserves R (ret a).
Proof. intros w; apply R_refl. Qed.

Lemma preserves_throw {A} (e : db_error) : preserves R (@throw A e).
Proof. intros w; apply R_refl. Qed.

Lemma preserves_get_now : preserves R get_now.
Proof. intros w; apply R_refl. Qed.

Lemma preserves_bind {A B} (m : M A) (k : A -> M B) :
  preserves R m -> (forall a, preserves R (k a)) -> preserves R (bind m k).
Proof.
  intros Hm Hk w; unfold bind.
  specialize (Hm w); destruct (m w) as [[e|a] w'] eqn:E; simpl in *; [exact Hm|].
  eapply R_trans; [exact Hm | apply Hk].
Qed.

Lemma preserves_db {A} (f : Store -> db_error + (A * Store)) :
  (forall s a s', f s = inr (a, s') -> R s s') -> preserves R (db f).
Proof.
  intros Hf w; unfold db.
  destruct (faults w) as [|[|] fs]; simpl;
    try apply R_refl;
    destruct (f (store w)) as [e|[a s']] eqn:E; simpl; try apply R_refl; eapply Hf; eauto.
Qed.

Lemma handle_preserves (m : M Response) h :
  preserves R m -> route_preserves R (handle m h).
Proof.
  intros Hm w; unfold handle; specialize (Hm w).
  destruct (m w) as [[e|r] w']; exact Hm.
Qed.

End Preserves.

Ltac unfold_model :=
  unfold exec_op, register, login, create_transaction, list_user_transactions,
    submit_payment, confirm_delivery, open_dispute, admin_data, admin_verify,
    admin_release, admin_refund, admin_delete_payment,
    user_find_one_by_phone, user_find_by_id, user_create, transaction_create,
    commission_create, payment_create, transaction_find_by_id_and_update,
    transaction_find_one_and_update, payment_find_one_and_update_verified,
    commission_find_one_and_update, payment_find_one_and_delete,
    transaction_find_one_and_delete, commission_find_one_and_delete.

(** Break a route into its database calls; each call leaves a goal
    [R s s'] with [Hf : f s = inr (a, s')] in context. *)
Ltac preserves_tac Hr Ht :=
  repeat match goal with
  | |- route_preserves ?R (handle _ _) => apply handle_preserves
  | |- preserves ?R (bind _ _) => apply (preserves_bind R Ht); [|intro]
  | |- preserves ?R (ret _) => apply (preserves_ret R Hr)
  | |- preserves ?R (throw _) => apply (preserves_throw R Hr)
  | |- preserves ?R get_now => apply (preserves_get_now R Hr)
  | |- preserves ?R (db _) => apply (preserves_db R Hr); intros ?s ?a ?s' ?Hf
  | |- preserves ?R (match ?x with _ => _ end) => destruct x
  | |- preserves ?R (if ?x then _ else _) => destruct x
  end.

(** Invert [Hf : f s = inr (a, s')] for the database functions of the model. *)
Ltac invert_db :=
  cbv beta in *;
  repeat match goal with
  | H : context [let '(_, _) := ?u in _] |- _ => destruct u eqn:?
  | H : (if ?b then _ else _) = _ |- _ => destruct b
  | H : inl _ = inr _ |- _ => discriminate H
  | H : inr (_, _) = inr (_, _) |- _ => injection H as <- <-
  end.

(** ** Lemmas on the collection primitives *)

Lemma update_first_map {A B} (g : A -> B) (p : A -> bool) (f : A -> A) l :
  (forall x, g (f x) = g x) -> map g (snd (update_first p f l)) = map g l.
Proof.
  intros Hg; induction l as [|x l IH]; simpl; [reflexivity|].
  destruct (p x); simpl; [rewrite Hg; reflexivity|].
  destruct (update_first p f l) as [r l'] eqn:E; simpl in *; rewrite IH; reflexivity.
Qed.

Lemma update_first_in {A} (p : A -> bool) (f : A -> A) l y :
  In y (snd (update_first p f l)) -> In y l \/ exists x, In x l /\ y = f x.
Proof.
  induction l as [|x l IH]; simpl; [tauto|].
  destruct (p x); simpl.
  - intros [<-|H]; [right; exists x; auto | left; auto].
  - destruct (update_first p f l) as [r l'] eqn:E; simpl in *.
    intros [<-|H]; [left; auto|].
    destruct (IH H) as [H'|[z [Hz ->]]]; [left; auto | right; exists z; auto].
Qed.

Lemma delete_first_in {A} (p : A -> bool) l y :
  In y (snd (delete_first p l)) -> In y l.
Proof.
  induction l as [|x l IH]; simpl; [tauto|].
  destruct (p x); simpl; [auto|].
  destruct (delete_first p l) as [r l'] eqn:E; simpl in *; intuition.
Qed.

Lemma delete_first_map_nomatch {A} (p : A -> bool) l :
  (forall x, In x l -> p x = false) -> delete_first p l = (None, l).
Proof.
  induction l as [|x l IH]; simpl; intros H; [reflexivity|].
  rewrite (H x (or_introl eq_refl)), IH by auto; reflexivity.
Qed.

Lemma update_first_nomatch {A} (p : A -> bool) (f : A -> A) l :
  (forall x, In x l -> p x = false) -> update_first p f l = (None, l).
Proof.
  induction l as [|x l IH]; simpl; intros H; [reflexivity|].
  rewrite (H x (or_introl eq_refl)), IH by auto; reflexivity.
Qed.

(** The first match splits the list. *)
Lemma update_first_split {A} (p : A -> bool) (f : A -> A) l y :
  In y l -> p y = true ->
  exists pre x post, l = pre ++ x :: post /\ (forall z, In z pre -> p z = false)
    /\ p x = true /\ update_first p f l = (Some x, pre ++ f x :: post).
Proof.
  induction l as [|z l IH]; simpl; [tauto|].
  intros Hin Hy; destruct (p z) eqn:Ez.
  - exists [], z, l; simpl; repeat split; auto; tauto.
  - destruct Hin as [->|Hin]; [congruence|].
    destruct (IH Hin Hy) as (pre & x & post & -> & Hpre & Hx & Hu).
    exists (z :: pre), x, post; simpl; rewrite Hu; repeat split; auto.
    intros u [<-|Hu']; auto.
Qed.

Lemma find_split {A} (p : A -> bool) pre x post :
  (forall z, In z pre -> p z = false) -> p x = true -> find p (pre ++ x :: post) = Some x.
Proof.
  induction pre as [|z pre IH]; simpl; intros H Hx; [rewrite Hx; reflexivity|].
  rewrite (H z (or_introl eq_refl)); apply IH; auto.
Qed.

Lemma find_nomatch {A} (p : A -> bool) l :
  (forall x, In x l -> p x = false) -> find p l = None.
Proof.
  induction l as [|x l IH]; simpl; intros H; [reflexivity|].
  rewrite (H x (or_introl eq_refl)); apply IH; auto.
Qed.

(** * Properties *)

(** ** Sanity checks of the fee computation *)

Example compute_fee_1000 : compute_fee js_1000 = parse_hundredths false 1000.
Proof. vm_compute. reflexivity. Qed.

Example compute_fee_1_5 : compute_fee js_1_5 = parse_hundredths false 1.
Proof. vm_compute. reflexivity. Qed.

(** ** C1 *)

(** C1 (code_bug): after a transaction with two submitted payments is
    deleted, the admin listing still shows the second payment: the route
    deletes only the first Payment row matching the transaction id. *)
Lemma C1_delete_keeps_second_payment :
  let w := run no_login
             [OpCreateTransaction (order_request js_1000) 0;
              OpSubmitPayment (Some "KS1-100000") (Some "MOMO1");
              OpSubmitPayment (Some "KS1-100000") (Some "MOMO2");
              OpAdminDelete "KS1-100000"] (start []) in
  fst (admin_data w) =
    ok (BAdminData []
          [mkPayment (new_object_id 3) "KS1-100000" (Some "MOMO2") false 0] []).
Proof. vm_compute. reflexivity. Qed.

(** ** C2 *)

(** C2 (counterexample): with no registered user at all, the login
    [admin]/[admin123] succeeds with the administrative identity. *)
Lemma C2_admin_bypass_unregistered :
  users (store (start [])) = [] /\
  fst (login no_login "admin" "admin123" (start [])) = ok BLoginAdmin.
Proof. split; reflexivity. Qed.

(** ** C3 *)

(** C3 (counterexample): an order with amount [-5] passes the check,
    answers 200 and stores a Transaction and a Commission. *)
Lemma C3_negative_amount_accepted :
  let '(r, w') := create_transaction (order_request js_minus_5) 0 (start []) in
  is_success r = true /\ length (transactions (store w')) = 1%nat
  /\ length (commissions (store w')) = 1%nat.
Proof. vm_compute. repeat split. Qed.

(** ** C4 *)

(** C4 (counterexample): when the Commission insert hits a storage failure
    (third database call), the route answers 500 but the Transaction stays
    stored with no Commission. *)
Lemma C4_commission_failure_keeps_transaction :
  let '(r, w') := create_transaction (order_request js_1000) 0 (start [false; false; true]) in
  r = fail 500 "Failed to create transaction"
  /\ length (transactions (store w')) = 1%nat /\ commissions (store w') = [].
Proof. vm_compute. repeat split. Qed.

(** ** C5 *)

(** C5 (counterexample): for amount [1.5] the stored fee is the double
    [0.01], while [1.5 x 0.01 = 0.015] rounded to 2 decimals is [0.02], half
    up and half to even alike. *)
Lemma C5_fee_1_5 :
  match fst (create_transaction (order_request js_1_5) 0 (start [])) with
  | mkResponse 200 (BTransaction t) =>
      fee t = parse_hundredths false 1
      /\ spec_fee_half_up js_1_5 = parse_hundredths false 2
      /\ spec_fee_half_even js_1_5 = parse_hundredths false 2
      /\ fee t <> spec_fee_half_up js_1_5 /\ fee t <> spec_fee_half_even js_1_5
  | _ => False
  end.
Proof. vm_compute. repeat split; discriminate. Qed.


(** ** Transactions keep their non-status fields *)

Lemma same_tx_frames_refl s : same_tx_frames s s.
Proof. reflexivity. Qed.

Lemma same_tx_frames_trans s1 s2 s3 :
  same_tx_frames s1 s2 -> same_tx_frames s2 s3 -> same_tx_frames s1 s3.
Proof. unfold same_tx_frames; congruence. Qed.

Lemma set_tx_status_frame st t : tx_frame (set_tx_status st t) = tx_frame t.
Proof. reflexivity. Qed.

Lemma keeps_transactions_route cmp o :
  keeps_transactions_op o = true -> route_preserves same_tx_frames (exec_op cmp o).
Proof.
  intros Ho; destruct o; try discriminate Ho; unfold_model;
    preserves_tac same_tx_frames_refl same_tx_frames_trans; invert_db;
    unfold same_tx_frames; simpl; try reflexivity;
    match goal with
    | U : update_first ?p (set_tx_status ?st) ?l = (_, _) |- _ =>
        pose proof (update_first_map tx_frame p (set_tx_status st) l (set_tx_status_frame st)) as HH;
        rewrite U in HH; exact HH
    end.
Qed.

(** ** Only the admin verification sets [verified] *)

Lemma no_new_verified_refl s : no_new_verified s s.
Proof. intros id H; exact H. Qed.

Lemma no_new_verified_trans s1 s2 s3 :
  no_new_verified s1 s2 -> no_new_verified s2 s3 -> no_new_verified s1 s3.
Proof. unfold no_new_verified; auto. Qed.

Lemma verified_in_place_refl s : verified_in_place s s.
Proof. split; auto. Qed.

Lemma verified_in_place_trans s1 s2 s3 :
  verified_in_place s1 s2 -> verified_in_place s2 s3 -> verified_in_place s1 s3.
Proof.
  intros [H1 H1'] [H2 H2']; split; intros id H.
  - destruct (H2 id H) as [H3|H3]; auto.
  - auto.
Qed.

Lemma no_new_verified_route cmp o :
  is_admin_verify o = false -> route_preserves no_new_verified (exec_op cmp o).
Proof.
  intros Ho; destruct o; try discriminate Ho; unfold_model;
    preserves_tac no_new_verified_refl no_new_verified_trans; invert_db;
    intros pid (p & Hin & Hid & Hv); simpl in Hin.
  all: try solve [exists p; auto].
  - (* Payment.create *)
    apply in_app_or in Hin; destruct Hin as [Hin|[<-|[]]];
      [exists p; auto | discriminate Hv].
  - (* Payment.findOneAndDelete *)
    match goal with
    | U : delete_first ?q ?l = (_, _) |- _ =>
        pose proof (delete_first_in q l p) as HH; rewrite U in HH
    end.
    exists p; auto.
Qed.

Lemma verified_in_place_verify cmp t : route_preserves verified_in_place (exec_op cmp (OpAdminVerify t)).
Proof.
  unfold_model; preserves_tac verified_in_place_refl verified_in_place_trans; invert_db;
    try apply verified_in_place_refl.
  - match goal with
    | U : update_first ?q ?f ?l = (_, _) |- _ =>
        pose proof (update_first_in q f l) as HH; rewrite U in HH; simpl in HH
    end.
    split.
    + intros pid (p & Hin & Hid & Hv); simpl in Hin;
        destruct (HH p Hin) as [H0|(x & Hx & ->)];
        [left; exists p; auto | right; exists x; auto].
    + intros pid (p & Hin & Hid); simpl in Hin;
        destruct (HH p Hin) as [H0|(x & Hx & ->)]; [exists p | exists x]; auto.
  - split; intros pid H; [left|]; exact H.
Qed.

Lemma run_snoc cmp ops o w :
  run cmp (ops ++ [o]) w = snd (exec_op cmp o (run cmp ops w)).
Proof. revert w; induction ops as [|o' ops IH]; intros w; simpl; auto. Qed.

Lemma verified_origin cmp w0 ops pid :
  (forall p, In p (payments (store w0)) -> verified p = false) ->
  verified_in (store (run cmp ops w0)) pid ->
  exists ops1 t ops2, ops = ops1 ++ OpAdminVerify t :: ops2
    /\ unverified_in (store (run cmp ops1 w0)) pid
    /\ verified_in (store (run cmp (ops1 ++ [OpAdminVerify t]) w0)) pid.
Proof.
  intros H0; induction ops as [|o ops IH] using rev_ind; simpl.
  - intros (p & Hin & _ & Hv); rewrite (H0 p Hin) in Hv; discriminate.
  - rewrite run_snoc; intros Hv.
    assert (Hprev : verified_in (store (run cmp ops w0)) pid ->
              exists ops1 t ops2, ops ++ [o] = ops1 ++ OpAdminVerify t :: ops2
                /\ unverified_in (store (run cmp ops1 w0)) pid
                /\ verified_in (store (run cmp (ops1 ++ [OpAdminVerify t]) w0)) pid).
    { intros Hp; destruct (IH Hp) as (ops1 & t & ops2 & -> & Hu & Hv').
      exists ops1, t, (ops2 ++ [o]); split; auto.
      rewrite <- app_assoc; reflexivity. }
    destruct (is_admin_verify o) eqn:Ho.
    + destruct o; try discriminate Ho.
      destruct (proj1 (verified_in_place_verify cmp txid (run cmp ops w0)) pid Hv)
        as [Hp|(p & Hin & Hid)]; [now apply Hprev|].
      destruct (verified p) eqn:Hvp; [apply Hprev; exists p; auto|].
      exists ops, txid, []; split; [reflexivity|]; split.
      * exists p; auto.
      * rewrite run_snoc; exact Hv.
    + apply Hprev, (no_new_verified_route cmp o Ho (run cmp ops w0) pid Hv).
Qed.

Lemma submit_payment_unverified w txid momo :
  payments (store (snd (submit_payment txid momo w))) = payments (store w)
  \/ exists p, payments (store (snd (submit_payment txid momo w))) = payments (store w) ++ [p]
               /\ verified p = false.
Proof.
  unfold submit_payment, handle, payment_create, bind, get_now, throw, ret, db.
  destruct txid as [i|]; simpl; auto.
  destruct (js_string_truthy i); simpl; auto.
  destruct (faults w) as [|[] fs]; simpl; auto; right; eexists; split; reflexivity.
Qed.

(** ** Fault-free runs of the status updates *)

Lemma update_first_at {A} (p : A -> bool) (f : A -> A) pre x post :
  (forall z, In z pre -> p z = false) -> p x = true ->
  update_first p f (pre ++ x :: post) = (Some x, pre ++ f x :: post).
Proof.
  induction pre as [|z pre IH]; simpl; intros H Hx; [rewrite Hx; reflexivity|].
  rewrite (H z (or_introl eq_refl)), IH; auto.
Qed.

Lemma eqb_false_of_neq (a b : string) : a <> b -> String.eqb a b = false.
Proof. apply String.eqb_neq. Qed.

Lemma confirm_delivery_no_fault w oid pre x post :
  faults w = [] -> cast_object_id oid = Some oid ->
  transactions (store w) = pre ++ x :: post ->
  (forall z, In z pre -> String.eqb (tx_id z) oid = false) ->
  String.eqb (tx_id x) oid = true ->
  confirm_delivery oid w
  = (ok (BSuccess None),
     set_store (set_transactions (pre ++ set_tx_status delivered x :: post) (store w)) w).
Proof.
  intros Hf Hc Ht Hpre Hx.
  unfold confirm_delivery, transaction_find_by_id_and_update, handle, bind, ret, db.
  rewrite Hc, Hf, Ht, update_first_at by assumption.
  destruct w as [s fs n]; simpl in *; subst; reflexivity.
Qed.

(** Case analysis of [create_transaction] down to each path through it. *)
Ltac split_create :=
  cbv [bind ret db get_now throw user_find_by_id transaction_create commission_create
       set_faults set_store];
  repeat (simpl; match goal with
                 | |- context [match ?x with _ => _ end] =>
                     lazymatch x with
                     | context [match _ with _ => _ end] => fail
                     | _ => destruct x eqn:?
                     end
                 end).

Lemma create_transaction_outcome req draw w :
  let '(r, w') := create_transaction req draw w in create_outcome req (store w) r (store w').
Proof.
  destruct w as [[us ts ps cs n] fs tnow].
  destruct req as [b sp a d]; unfold create_transaction, handle, create_outcome; simpl.
  split_create.
  all: subst; simpl; split; [reflexivity | split; [reflexivity |]].
  all: first
    [ left; do 2 eexists; split; [reflexivity|]; repeat split
    | right; split; [first [left; reflexivity | right; reflexivity]|];
      split; [reflexivity|]; first [left; reflexivity | right; eexists; reflexivity] ].
Qed.

Lemma create_transaction_present req draw w :
  present_string (req_buyer_id req) && present_string (req_seller_phone req)
    && present_number (req_amount req) = true ->
  code (fst (create_transaction req draw w)) <> 400.
Proof.
  destruct w as [[us ts ps cs n] fs tnow].
  destruct req as [b sp a d]; unfold create_transaction, handle; simpl; intros H.
  split_create.
  all: simpl in *; try discriminate; try congruence.
  all: rewrite andb_false_r in H; discriminate H.
Qed.

Lemma create_transaction_missing req draw w :
  present_string (req_buyer_id req) && present_string (req_seller_phone req)
    && present_number (req_amount req) = false ->
  create_transaction req draw w = (fail 400 "Missing fields", w).
Proof.
  destruct req as [[b|] [sp|] [a|] d]; unfold create_transaction, handle; simpl;
    intros H; try reflexivity.
  rewrite H; reflexivity.
Qed.

Lemma admin_release_no_fault w txid :
  faults w = [] ->
  admin_release txid w
  = (ok (BSuccess None),
     set_store
       (set_commissions
          (snd (update_first (fun c => String.eqb (com_transaction_id c) txid)
                  (set_com_status paid) (commissions (store w))))
          (set_transactions
             (snd (update_first (fun t => String.eqb (transaction_id t) txid)
                     (set_tx_status completed) (transactions (store w))))
             (store w))) w).
Proof.
  destruct w as [s fs n]; simpl; intros ->.
  unfold admin_release, transaction_find_one_and_update, commission_find_one_and_update,
    handle, bind, ret, db; simpl.
  destruct (update_first _ (set_tx_status completed) (transactions s)) as [r1 l1]; simpl.
  destruct (update_first _ (set_com_status paid) (commissions s)) as [r2 l2]; simpl.
  reflexivity.
Qed.

Lemma login_unregistered cmp w phone pw :
  ~ In phone (map phone_number (users (store w))) ->
  ~ (phone = "admin" /\ pw = "admin123") ->
  login cmp phone pw w
  = match faults w with
    | true :: fs => (fail 500 "Server error", set_faults fs w)
    | fs => (fail 401 "Invalid credentials", set_faults (tl fs) w)
    end.
Proof.
  intros Hreg Hadm; unfold login, handle.
  destruct (String.eqb phone "admin" && String.eqb pw "admin123") eqn:E.
  { apply andb_prop in E; destruct E as [E1 E2].
    apply String.eqb_eq in E1, E2; tauto. }
  unfold bind, user_find_one_by_phone, db.
  rewrite find_nomatch.
  - destruct (faults w) as [|[] fs]; reflexivity.
  - intros u Hu; apply eqb_false_of_neq; intros Heq; apply Hreg.
    rewrite <- Heq; apply in_map; exact Hu.
Qed.

(** ** Claims settled on the model *)

(** C2 (amended): a login whose phone number belongs to no registered user
    never succeeds unless it is the hard-coded [admin]/[admin123] pair: it
    answers 401 (500 when the user lookup hits a storage failure), and
    changes no collection. *)
Theorem C2_unregistered_login_fails cmp w phone pw :
  ~ In phone (map phone_number (users (store w))) ->
  ~ (phone = "admin" /\ pw = "admin123") ->
  is_success (fst (login cmp phone pw w)) = false
  /\ (hd false (faults w) = false -> fst (login cmp phone pw w) = fail 401 "Invalid credentials")
  /\ store (snd (login cmp phone pw w)) = store w.
Proof.
  intros H1 H2; rewrite (login_unregistered cmp w phone pw H1 H2).
  destruct (faults w) as [|[] fs]; simpl; repeat split; auto; discriminate.
Qed.

(** C3 (amended): the check is JavaScript truthiness. When [buyer_id] or
    [seller_phone] is missing or empty, or [amount] is missing, [0] or [NaN],
    the route answers 400 and the world is untouched; otherwise (negative
    amounts included) it never answers 400. *)
Theorem C3_presence_check req draw w :
  (present_string (req_buyer_id req) && present_string (req_seller_phone req)
     && present_number (req_amount req) = false ->
   create_transaction req draw w = (fail 400 "Missing fields", w))
  /\ (present_string (req_buyer_id req) && present_string (req_seller_phone req)
        && present_number (req_amount req) = true ->
      code (fst (create_transaction req draw w)) <> 400).
Proof.
  split; [apply create_transaction_missing | apply create_transaction_present].
Qed.

(** C4 (amended): the Transaction and then its Commission are written by two
    independent inserts. On success both are appended, the Commission with
    amount = fee and status [pending]. On a 400 or 500 answer no Commission
    is added, but the Transaction may already be stored; users and payments
    never change. *)
Theorem C4_create_two_writes req draw w :
  let '(r, w') := create_transaction req draw w in create_outcome req (store w) r (store w').
Proof. exact (create_transaction_outcome req draw w). Qed.

(** C5 (amended): the created Transaction's fee is
    [parseFloat((amount * 0.01).toFixed(2))] computed on doubles, and the
    Commission appended with it has that fee as amount. *)
Theorem C5_fee_js_rounding req draw w t :
  fst (create_transaction req draw w) = ok (BTransaction t) ->
  req_amount req = Some (amount t) /\ fee t = compute_fee (amount t)
  /\ exists c, commissions (store (snd (create_transaction req draw w)))
                 = commissions (store w) ++ [c]
               /\ com_transaction_id c = transaction_id t /\ com_amount c = fee t.
Proof.
  pose proof (create_transaction_outcome req draw w) as Ho.
  destruct (create_transaction req draw w) as [r w']; simpl; intros ->.
  destruct Ho as (_ & _ & [(t' & c & Hr & _ & Hc & (Hp1 & Hp2 & _) & _ & Ha & Hf)
                          |[[Hr|Hr] _]]); try discriminate Hr.
  injection Hr as <-; split; [exact Ha|split; [exact Hf|]].
  exists c; auto.
Qed.

(** C6: when no storage failure occurs, releasing the funds of a stored
    transaction id answers success; afterwards the Transaction found by that
    id is [completed] and the Commission found by that id (the paired one) is
    [paid]. *)
Theorem C6_release_completes w txid t c :
  faults w = [] ->
  In t (transactions (store w)) -> transaction_id t = txid ->
  In c (commissions (store w)) -> com_transaction_id c = txid ->
  let '(r, w') := admin_release txid w in
  r = ok (BSuccess None)
  /\ (exists t', find (fun x => String.eqb (transaction_id x) txid) (transactions (store w'))
                 = Some t' /\ status t' = completed)
  /\ (exists c', find (fun x => String.eqb (com_transaction_id x) txid) (commissions (store w'))
                 = Some c' /\ com_status c' = paid).
Proof.
  intros Hf Ht Htid Hc Hcid; rewrite (admin_release_no_fault w txid Hf); simpl.
  destruct (update_first_split (fun x => String.eqb (transaction_id x) txid)
              (set_tx_status completed) _ t Ht) as (pre & x & post & _ & Hpre & Hx & U);
    [apply String.eqb_eq; exact Htid|].
  destruct (update_first_split (fun x => String.eqb (com_transaction_id x) txid)
              (set_com_status paid) _ c Hc) as (preC & y & postC & _ & HpreC & Hy & V);
    [apply String.eqb_eq; exact Hcid|].
  rewrite U, V; simpl; split; [reflexivity|split].
  - exists (set_tx_status completed x); split; [apply find_split; auto | reflexivity].
  - exists (set_com_status paid y); split; [apply find_split; auto | reflexivity].
Qed.

(** C7: a submitted Payment is stored with [verified = false]; no request
    other than the admin verification turns a payment verified; and from a
    store without verified payments, every payment verified after a run of
    requests was stored unverified before some admin verification in the run,
    and is verified right after it. *)
Theorem C7_verified_only_by_admin cmp :
  (forall w txid momo,
     payments (store (snd (submit_payment txid momo w))) = payments (store w)
     \/ exists p, payments (store (snd (submit_payment txid momo w))) = payments (store w) ++ [p]
                  /\ verified p = false)
  /\ (forall o w pid, is_admin_verify o = false ->
        verified_in (store (snd (exec_op cmp o w))) pid -> verified_in (store w) pid)
  /\ (forall w0 ops pid,
        (forall p, In p (payments (store w0)) -> verified p = false) ->
        verified_in (store (run cmp ops w0)) pid ->
        exists ops1 t ops2, ops = ops1 ++ OpAdminVerify t :: ops2
          /\ unverified_in (store (run cmp ops1 w0)) pid
          /\ verified_in (store (run cmp (ops1 ++ [OpAdminVerify t]) w0)) pid).
Proof.
  split; [exact submit_payment_unverified|split].
  - intros o w pid Ho; exact (no_new_verified_route cmp o Ho w pid).
  - intros w0 ops pid; exact (verified_origin cmp w0 ops pid).
Qed.

(** C8: every request other than creating or deleting a transaction keeps
    each stored Transaction's fields other than [status] (object id,
    [transaction_id], buyer, phones, amount, fee, description, creation
    time), in the same order. *)
Theorem C8_fee_fixed cmp o w :
  keeps_transactions_op o = true ->
  map tx_frame (transactions (store (snd (exec_op cmp o w))))
  = map tx_frame (transactions (store w)).
Proof. intros Ho; exact (keeps_transactions_route cmp o Ho w). Qed.

(** C9: confirming delivery of a stored transaction twice, without storage
    failures, succeeds both times; the second call changes nothing; the
    first changes only the status of that Transaction, to [delivered]. *)
Theorem C9_confirm_delivery_idempotent w t :
  faults w = [] -> In t (transactions (store w)) ->
  cast_object_id (tx_id t) = Some (tx_id t) ->
  exists pre x post,
    transactions (store w) = pre ++ x :: post /\ tx_id x = tx_id t
    /\ fst (confirm_delivery (tx_id t) w) = ok (BSuccess None)
    /\ snd (confirm_delivery (tx_id t) w)
       = set_store (set_transactions (pre ++ set_tx_status delivered x :: post) (store w)) w
    /\ fst (confirm_delivery (tx_id t) (snd (confirm_delivery (tx_id t) w))) = ok (BSuccess None)
    /\ snd (confirm_delivery (tx_id t) (snd (confirm_delivery (tx_id t) w)))
       = snd (confirm_delivery (tx_id t) w)
    /\ status (set_tx_status delivered x) = delivered.
Proof.
  intros Hf Ht Hc.
  destruct (update_first_split (fun x => String.eqb (tx_id x) (tx_id t))
              (set_tx_status delivered) _ t Ht (String.eqb_refl _))
    as (pre & x & post & Hl & Hpre & Hx & _).
  exists pre, x, post.
  pose proof (confirm_delivery_no_fault w (tx_id t) pre x post Hf Hc Hl Hpre Hx) as E1.
  assert (E2 : confirm_delivery (tx_id t) (snd (confirm_delivery (tx_id t) w))
               = (ok (BSuccess None), snd (confirm_delivery (tx_id t) w))).
  { rewrite E1; simpl.
    rewrite (confirm_delivery_no_fault _ (tx_id t) pre (set_tx_status delivered x) post);
      simpl; auto. }
  rewrite E2, E1; simpl.
  repeat split; auto.
  apply String.eqb_eq; exact Hx.
Qed.

(** C10: without storage failures, the four admin mutations on a
    transaction id that no Transaction, Payment or Commission carries answer
    success and leave the world as it was. *)
Theorem C10_unknown_id_noop w txid :
  faults w = [] ->
  (forall t, In t (transactions (store w)) -> transaction_id t <> txid) ->
  (forall p, In p (payments (store w)) -> pay_transaction_id p <> txid) ->
  (forall c, In c (commissions (store w)) -> com_transaction_id c <> txid) ->
  admin_verify txid w = (ok (BSuccess None), w)
  /\ admin_release txid w = (ok (BSuccess None), w)
  /\ admin_refund txid w = (ok (BSuccess None), w)
  /\ admin_delete_payment txid w = (ok (BSuccess (Some "Deleted successfully")), w).
Proof.
  destruct w as [[us ts ps cs n] fs tnow]; simpl; intros -> Ht Hp Hc.
  unfold admin_verify, admin_release, admin_refund, admin_delete_payment,
    payment_find_one_and_update_verified, transaction_find_one_and_update,
    commission_find_one_and_update, payment_find_one_and_delete,
    transaction_find_one_and_delete, commission_find_one_and_delete,
    handle, bind, ret, db; simpl.
  repeat (cbn; first
    [ rewrite update_first_nomatch by (intros x Hx; apply eqb_false_of_neq; auto)
    | rewrite delete_first_map_nomatch by (intros x Hx; apply eqb_false_of_neq; auto) ]).
  repeat split.
Qed.

(** ** Witnesses: the hypotheses of the claims hold on concrete inputs *)

Lemma C2_witness :
  ~ In "0555000000" (map phone_number (users (store (start []))))
  /\ ~ ("0555000000" = "admin" /\ "secret" = "admin123")
  /\ is_success (fst (login no_login "0555000000" "secret" (start []))) = false
  /\ (hd false (faults (start [])) = false ->
      fst (login no_login "0555000000" "secret" (start [])) = fail 401 "Invalid credentials")
  /\ store (snd (login no_login "0555000000" "secret" (start []))) = store (start []).
Proof.
  assert (H1 : ~ In "0555000000" (map phone_number (users (store (start []))))).
  { simpl; tauto. }
  assert (H2 : ~ ("0555000000" = "admin" /\ "secret" = "admin123")).
  { intros [H _]; discriminate H. }
  split; [exact H1|split; [exact H2|]].
  exact (C2_unregistered_login_fails no_login (start []) "0555000000" "secret" H1 H2).
Defined.

Lemma C3_witness :
  create_transaction (mkCreateRequest None (Some "0240000000") (Some js_1000) None) 0 (start [])
    = (fail 400 "Missing fields", start [])
  /\ code (fst (create_transaction (order_request js_minus_5) 0 (start []))) <> 400.
Proof.
  split.
  - apply (proj1 (C3_presence_check
                    (mkCreateRequest None (Some "0240000000") (Some js_1000) None) 0 (start []))).
    reflexivity.
  - apply (proj2 (C3_presence_check (order_request js_minus_5) 0 (start []))).
    reflexivity.
Defined.

Lemma C5_witness :
  fst (create_transaction (order_request js_1000) 0 (start [])) = ok (BTransaction sample_tx)
  /\ req_amount (order_request js_1000) = Some (amount sample_tx)
  /\ fee sample_tx = compute_fee (amount sample_tx)
  /\ exists c, commissions (store (snd (create_transaction (order_request js_1000) 0 (start []))))
                 = commissions (store (start [])) ++ [c]
               /\ com_transaction_id c = transaction_id sample_tx /\ com_amount c = fee sample_tx.
Proof.
  assert (H : fst (create_transaction (order_request js_1000) 0 (start []))
              = ok (BTransaction sample_tx)) by (vm_compute; reflexivity).
  split; [exact H|].
  exact (C5_fee_js_rounding (order_request js_1000) 0 (start []) sample_tx H).
Defined.

Lemma C6_witness :
  faults sample_world = [] /\ In sample_tx (transactions (store sample_world))
  /\ In sample_commission (commissions (store sample_world))
  /\ let '(r, w') := admin_release "KS1-100000" sample_world in
     r = ok (BSuccess None)
     /\ (exists t', find (fun x => String.eqb (transaction_id x) "KS1-100000")
                      (transactions (store w')) = Some t' /\ status t' = completed)
     /\ (exists c', find (fun x => String.eqb (com_transaction_id x) "KS1-100000")
                      (commissions (store w')) = Some c' /\ com_status c' = paid).
Proof.
  assert (Hf : faults sample_world = []) by reflexivity.
  assert (Ht : In sample_tx (transactions (store sample_world))) by (vm_compute; left; reflexivity).
  assert (Hc : In sample_commission (commissions (store sample_world)))
    by (vm_compute; left; reflexivity).
  split; [exact Hf|split; [exact Ht|split; [exact Hc|]]].
  exact (C6_release_completes sample_world "KS1-100000" sample_tx sample_commission
           Hf Ht eq_refl Hc eq_refl).
Defined.

Lemma C7_witness :
  exists ops1 t ops2, verify_run = ops1 ++ OpAdminVerify t :: ops2
    /\ unverified_in (store (run no_login ops1 (start []))) (new_object_id 2)
    /\ verified_in (store (run no_login (ops1 ++ [OpAdminVerify t]) (start []))) (new_object_id 2).
Proof.
  apply (proj2 (proj2 (C7_verified_only_by_admin no_login)) (start []) verify_run).
  - intros p [].
  - exists (mkPayment (new_object_id 2) "KS1-100000" (Some "MOMO1") true 0).
    split; [vm_compute; left; reflexivity | split; reflexivity].
Defined.

Lemma C8_witness :
  keeps_transactions_op (OpAdminRelease "KS1-100000") = true
  /\ map tx_frame (transactions (store (snd (exec_op no_login (OpAdminRelease "KS1-100000") sample_world))))
     = map tx_frame (transactions (store sample_world)).
Proof.
  assert (H : keeps_transactions_op (OpAdminRelease "KS1-100000") = true) by reflexivity.
  split; [exact H|].
  exact (C8_fee_fixed no_login (OpAdminRelease "KS1-100000") sample_world H).
Defined.

Lemma C9_witness :
  faults sample_world = [] /\ In sample_tx (transactions (store sample_world))
  /\ cast_object_id (tx_id sample_tx) = Some (tx_id sample_tx)
  /\ exists pre x post,
       transactions (store sample_world) = pre ++ x :: post /\ tx_id x = tx_id sample_tx
       /\ fst (confirm_delivery (tx_id sample_tx) sample_world) = ok (BSuccess None)
       /\ snd (confirm_delivery (tx_id sample_tx) sample_world)
          = set_store (set_transactions (pre ++ set_tx_status delivered x :: post)
                         (store sample_world)) sample_world
       /\ fst (confirm_delivery (tx_id sample_tx) (snd (confirm_delivery (tx_id sample_tx) sample_world)))
          = ok (BSuccess None)
       /\ snd (confirm_delivery (tx_id sample_tx) (snd (confirm_delivery (tx_id sample_tx) sample_world)))
          = snd (confirm_delivery (tx_id sample_tx) sample_world)
       /\ status (set_tx_status delivered x) = delivered.
Proof.
  assert (Hf : faults sample_world = []) by reflexivity.
  assert (Ht : In sample_tx (transactions (store sample_world))) by (vm_compute; left; reflexivity).
  assert (Hc : cast_object_id (tx_id sample_tx) = Some (tx_id sample_tx))
    by (vm_compute; reflexivity).
  split; [exact Hf|split; [exact Ht|split; [exact Hc|]]].
  exact (C9_confirm_delivery_idempotent sample_world sample_tx Hf Ht Hc).
Defined.

Lemma C10_witness :
  admin_verify "KS1-999999" sample_world = (ok (BSuccess None), sample_world)
  /\ admin_release "KS1-999999" sample_world = (ok (BSuccess None), sample_world)
  /\ admin_refund "KS1-999999" sample_world = (ok (BSuccess None), sample_world)
  /\ admin_delete_payment "KS1-999999" sample_world
     = (ok (BSuccess (Some "Deleted successfully")), sample_world).
Proof.
  apply C10_unknown_id_noop.
  - reflexivity.
  - vm_compute; intros t [<-|[]]; discriminate.
  - vm_compute; intros p [].
  - vm_compute; intros c [<-|[]]; discriminate.
Defined.

(** * Further properties of the code *)

(** ** Sorting newest first *)

Lemma insert_newest_first_perm t l : Permutation (insert_newest_first t l) (t :: l).
Proof.
  induction l as [|x l IH]; simpl; [reflexivity|].
  destruct (created_at x <? created_at t); [reflexivity|].
  etransitivity; [apply perm_skip, IH | apply perm_swap].
Qed.

Lemma sort_newest_first_perm l : Permutation (sort_newest_first l) l.
Proof.
  unfold sort_newest_first; induction l as [|x l IH]; simpl; [reflexivity|].
  etransitivity; [apply insert_newest_first_perm | apply perm_skip, IH].
Qed.

Lemma insert_newest_first_sorted t l :
  Sorted newer_or_same l -> Sorted newer_or_same (insert_newest_first t l).
Proof.
  induction 1 as [|x l Hs IH Hhd]; simpl.
  - repeat constructor.
  - destruct (created_at x <? created_at t) eqn:E.
    + apply Z.ltb_lt in E.
      constructor; [constructor; auto | constructor; unfold newer_or_same; lia].
    + apply Z.ltb_ge in E.
      constructor; [exact IH|].
      destruct l as [|y l']; simpl.
      * constructor; unfold newer_or_same; lia.
      * destruct (created_at y <? created_at t); constructor; unfold newer_or_same; [lia|].
        inversion Hhd; unfold newer_or_same in *; lia.
Qed.

Lemma sort_newest_first_sorted l : Sorted newer_or_same (sort_newest_first l).
Proof.
  unfold sort_newest_first; induction l as [|x l IH]; simpl; [constructor|].
  apply insert_newest_first_sorted, IH.
Qed.

(** ** Store invariants *)

Lemma existsb_eqb_iff {A} (g : A -> string) l k :
  existsb (fun x => String.eqb (g x) k) l = true <-> In k (map g l).
Proof.
  rewrite existsb_exists, in_map_iff; split.
  - intros (x & Hx & E); apply String.eqb_eq in E; eauto.
  - intros (x & E & Hx); exists x; split; [auto | apply String.eqb_eq; auto].
Qed.

Lemma existsb_eqb_false {A} (g : A -> string) l k :
  existsb (fun x => String.eqb (g x) k) l = false -> ~ In k (map g l).
Proof.
  intros H Hin; apply existsb_eqb_iff in Hin; congruence.
Qed.

Lemma nodup_snoc {A B} (g : A -> B) l x :
  NoDup (map g l) -> ~ In (g x) (map g l) -> NoDup (map g (l ++ [x])).
Proof.
  intros H Hn; rewrite map_app; simpl.
  apply Permutation_NoDup with (g x :: map g l); [apply Permutation_cons_append|].
  constructor; auto.
Qed.

Lemma delete_first_nodup {A B} (g : A -> B) p l :
  NoDup (map g l) -> NoDup (map g (snd (delete_first p l))).
Proof.
  induction l as [|x l IH]; simpl; intros H; [constructor|].
  inversion H as [|? ? Hn Hd]; subst.
  destruct (p x); simpl; [exact Hd|].
  destruct (delete_first p l) as [r l'] eqn:E; simpl in *.
  constructor; [|auto].
  intros Hin; apply Hn; apply in_map_iff in Hin as (y & <- & Hy).
  apply in_map; pose proof (delete_first_in p l y) as HH; rewrite E in HH; auto.
Qed.

Lemma keeps_refl (I : Store -> Prop) s : keeps I s s.
Proof. intros H; exact H. Qed.

Lemma keeps_trans (I : Store -> Prop) s1 s2 s3 : keeps I s1 s2 -> keeps I s2 s3 -> keeps I s1 s3.
Proof. unfold keeps; auto. Qed.

(** Like [invert_db], keeping the outcome of each test. *)
Ltac invert_db_eqn :=
  cbv beta in *;
  repeat match goal with
  | H : context [let '(_, _) := ?u in _] |- _ => destruct u eqn:?
  | H : (if ?b then _ else _) = _ |- _ => destruct b eqn:?
  | H : inl _ = inr _ |- _ => discriminate H
  | H : inr (_, _) = inr (_, _) |- _ => injection H as <- <-
  end.

Lemma keeps_run (I : Store -> Prop) cmp :
  (forall o, route_preserves (keeps I) (exec_op cmp o)) ->
  forall ops w, I (store w) -> I (store (run cmp ops w)).
Proof.
  intros Ho ops; induction ops as [|o ops IH]; intros w Hw; simpl; [exact Hw|].
  apply IH, (Ho o w), Hw.
Qed.

Lemma phones_unique_route cmp o : route_preserves (keeps phones_unique) (exec_op cmp o).
Proof.
  destruct o; unfold_model;
    preserves_tac (keeps_refl phones_unique) (keeps_trans phones_unique);
    invert_db_eqn; unfold keeps, phones_unique; simpl; try solve [intros HI; exact HI].
  all: intros HI; apply nodup_snoc; [exact HI|]; simpl.
  all: apply existsb_eqb_false; assumption.
Qed.

Lemma txids_unique_route cmp o : route_preserves (keeps txids_unique) (exec_op cmp o).
Proof.
  destruct o; unfold_model;
    preserves_tac (keeps_refl txids_unique) (keeps_trans txids_unique);
    invert_db_eqn; unfold keeps, txids_unique; simpl; try solve [intros HI; exact HI].
  all: intros HI.
  all: first
    [ match goal with
      | U : update_first ?q (set_tx_status ?st) ?l = (_, ?l') |- _ =>
          pose proof (update_first_map transaction_id q (set_tx_status st) l
                        (fun _ => eq_refl)) as HH; rewrite U in HH; simpl in HH;
          rewrite HH; exact HI
      end
    | match goal with
      | U : delete_first ?q ?l = (_, ?l') |- _ =>
          pose proof (delete_first_nodup transaction_id q l HI) as HH; rewrite U in HH; exact HH
      end
    | apply nodup_snoc; [exact HI|]; simpl; apply existsb_eqb_false; assumption ].
Qed.

Lemma fees_consistent_route cmp o : route_preserves (keeps fees_consistent) (exec_op cmp o).
Proof.
  destruct o; unfold_model;
    preserves_tac (keeps_refl fees_consistent) (keeps_trans fees_consistent);
    invert_db_eqn; unfold keeps, fees_consistent; simpl; try solve [intros HI; exact HI].
  all: intros HI y Hy.
  all: first
    [ match goal with
      | U : update_first ?q (set_tx_status ?st) ?l = (_, ?l') |- _ =>
          pose proof (update_first_in q (set_tx_status st) l y) as HH; rewrite U in HH;
          destruct (HH Hy) as [H1|(x & Hx & ->)]; [auto | apply (HI x Hx)]
      end
    | match goal with
      | U : delete_first ?q ?l = (_, ?l') |- _ =>
          pose proof (delete_first_in q l y) as HH; rewrite U in HH; auto
      end
    | apply in_app_or in Hy; destruct Hy as [Hy|[<-|[]]]; [auto | reflexivity] ].
Qed.

(** ** Registration and login *)

Lemma register_cases p q hashed w :
  js_string_truthy p = true -> js_string_truthy q = true ->
  register (Some p) (Some q) hashed w =
  match faults w with
  | true :: fs => (fail 400 "Server error", set_faults fs w)
  | fs => if existsb (fun u => String.eqb (phone_number u) p) (users (store w))
          then (fail 400 "Number exists", set_faults (tl fs) w)
          else (ok (BSuccess (Some "Welcome to Alkebulan.")),
                set_store (bump_oid (set_users (users (store w) ++
                   [mkUser (new_object_id (next_oid (store w))) p hashed (now w)]) (store w)))
                  (set_faults (tl fs) w))
  end.
Proof.
  intros Hp Hq; unfold register, handle, user_create, bind, get_now, ret, db; simpl.
  rewrite Hp, Hq; simpl.
  destruct (faults w) as [|[] fs]; simpl; try reflexivity;
    destruct (existsb _ _); reflexivity.
Qed.

(** [register]: with both fields present it never answers 500.  It
    succeeds exactly when the first database call does not fail and the phone
    number is not registered, and then appends one user carrying the phone
    number and the bcrypt hash.  A storage failure answers 400 "Server error",
    a registered number 400 "Number exists", and a failed registration leaves
    the store as it was. *)
Theorem X_register_outcome p q hashed w :
  js_string_truthy p = true -> js_string_truthy q = true ->
  let '(r, w') := register (Some p) (Some q) hashed w in
  code r <> 500
  /\ (is_success r = true <-> hd false (faults w) = false /\ ~ In p (map phone_number (users (store w))))
  /\ (hd false (faults w) = true -> r = fail 400 "Server error")
  /\ (hd false (faults w) = false -> In p (map phone_number (users (store w))) ->
      r = fail 400 "Number exists")
  /\ (is_success r = true -> exists u,
        store w' = bump_oid (set_users (users (store w) ++ [u]) (store w))
        /\ phone_number u = p /\ password u = hashed)
  /\ (is_success r = false -> store w' = store w).
Proof.
  intros Hp Hq; rewrite (register_cases p q hashed w Hp Hq).
  destruct w as [s fs n]; simpl.
  destruct fs as [|[] fs]; simpl;
    [| repeat split; try discriminate; intros [H _]; discriminate H |];
    destruct (existsb _ (users s)) eqn:E;
    [ pose proof (proj1 (existsb_eqb_iff phone_number (users s) p) E) as Hin
    | pose proof (existsb_eqb_false phone_number (users s) p E) as Hin
    | pose proof (proj1 (existsb_eqb_iff phone_number (users s) p) E) as Hin
    | pose proof (existsb_eqb_false phone_number (users s) p E) as Hin ];
    simpl; repeat split; try discriminate; try tauto; try (intros [_ H]; tauto);
    try (eexists; repeat split).
Qed.

Lemma login_not_admin cmp phone pw w :
  ~ (phone = "admin" /\ pw = "admin123") ->
  login cmp phone pw w =
  handle
    (u <- user_find_one_by_phone phone ;;
     match u with
     | Some u =>
         if cmp pw (password u)
         then ret (ok (BLoginUser (user_id u) (phone_number u)))
         else ret (fail 401 "Invalid credentials")
     | None => ret (fail 401 "Invalid credentials")
     end)
    (fun _ => fail 500 "Server error") w.
Proof.
  intros Hadm; unfold login.
  destruct (String.eqb phone "admin" && String.eqb pw "admin123") eqn:E; [|reflexivity].
  apply andb_prop in E; destruct E as [E1 E2]; apply String.eqb_eq in E1, E2; tauto.
Qed.

Lemma find_after_fresh {A} (g : A -> string) l x k :
  ~ In k (map g l) -> g x = k -> find (fun y => String.eqb (g y) k) (l ++ [x]) = Some x.
Proof.
  intros Hn Hx; apply find_split.
  - intros z Hz; apply eqb_false_of_neq; intros E; apply Hn; rewrite <- E; apply in_map, Hz.
  - apply String.eqb_eq, Hx.
Qed.

(** [register] then [login]: without storage failures, after registering a
    new phone number, logging in with it (other than the [admin] pair)
    succeeds with the new user's id exactly when bcrypt accepts the password
    against the stored hash, and answers 401 otherwise. *)
Theorem X_register_then_login cmp p q pw hashed w :
  js_string_truthy p = true -> js_string_truthy q = true ->
  faults w = [] -> ~ In p (map phone_number (users (store w))) ->
  ~ (p = "admin" /\ pw = "admin123") ->
  fst (register (Some p) (Some q) hashed w) = ok (BSuccess (Some "Welcome to Alkebulan."))
  /\ fst (login cmp p pw (snd (register (Some p) (Some q) hashed w)))
     = if cmp pw hashed then ok (BLoginUser (new_object_id (next_oid (store w))) p)
       else fail 401 "Invalid credentials".
Proof.
  intros Hp Hq Hf Hn Hadm; rewrite (register_cases p q hashed w Hp Hq), Hf.
  destruct (existsb _ _) eqn:E; [apply existsb_eqb_iff in E; tauto|].
  split; [reflexivity|].
  simpl; rewrite login_not_admin by exact Hadm.
  unfold handle, bind, user_find_one_by_phone, db, ret; simpl.
  rewrite find_after_fresh by (auto || reflexivity); simpl.
  destruct (cmp pw hashed); reflexivity.
Qed.

(** [GET /api/transactions/:userId] is read-only.  Without a storage
    failure it returns exactly the transactions whose [buyer_id] is the
    parameter, newest first; with one it answers 500. *)
Theorem X_list_user_transactions user w :
  let '(r, w') := list_user_transactions user w in
  store w' = store w
  /\ (hd false (faults w) = true -> r = fail 500 "Fetch failed")
  /\ (hd false (faults w) = false ->
      exists ts, r = ok (BTransactions ts)
        /\ Permutation ts (filter (fun t => String.eqb (buyer_id t) user) (transactions (store w)))
        /\ Sorted newer_or_same ts).
Proof.
  unfold list_user_transactions, handle, bind, ret, db.
  destruct w as [s fs n]; simpl.
  destruct fs as [|[] fs]; simpl; repeat split; try discriminate;
    intros _; eexists; repeat split;
    solve [apply sort_newest_first_perm | apply sort_newest_first_sorted].
Qed.

(** [GET /api/admin/data] is read-only.  When none of its three queries
    fails it returns every transaction, newest first, and the payments and
    commissions as stored; when one fails it answers 500. *)
Theorem X_admin_data w :
  let '(r, w') := admin_data w in
  store w' = store w
  /\ (In true (firstn 3 (faults w)) -> code r = 500)
  /\ (~ In true (firstn 3 (faults w)) ->
      exists ts, r = ok (BAdminData ts (payments (store w)) (commissions (store w)))
        /\ Permutation ts (transactions (store w)) /\ Sorted newer_or_same ts).
Proof.
  unfold admin_data, handle, bind, ret, db.
  destruct w as [s fs n]; simpl.
  destruct fs as [|[] [|[] [|[] fs]]]; simpl; split; try reflexivity; split;
    first
      [ intros _; reflexivity
      | intros H; exfalso; intuition discriminate
      | intros _; eexists; repeat split;
        solve [apply sort_newest_first_perm | apply sort_newest_first_sorted]
      | intros H; exfalso; apply H; intuition ].
Qed.

(** ** Status updates *)

(** Confirm-delivery and dispute with an id that is not an ObjectId (not 24
    hexadecimal digits, and not 12 characters) answer 500 before reaching the
    database: the world, fault schedule included, is unchanged. *)
Theorem X_malformed_id id w :
  String.length id <> 12%nat -> cast_object_id id = None ->
  confirm_delivery id w = (fail 500 "Confirm failed", w)
  /\ open_dispute id w = (fail 500 "Dispute failed", w).
Proof.
  intros _ H; unfold confirm_delivery, open_dispute, transaction_find_by_id_and_update,
    handle, bind, throw; rewrite H; split; reflexivity.
Qed.

(** Opening a dispute is not guarded by the status: without storage
    failures, the first Transaction with that object id becomes [disputed]
    whatever its status was (completed and cancelled included), and nothing
    else changes. *)
Theorem X_dispute_any_status w t :
  faults w = [] -> In t (transactions (store w)) -> cast_object_id (tx_id t) = Some (tx_id t) ->
  exists pre x post,
    transactions (store w) = pre ++ x :: post /\ tx_id x = tx_id t
    /\ open_dispute (tx_id t) w
       = (ok (BSuccess None),
          set_store (set_transactions (pre ++ set_tx_status disputed x :: post) (store w)) w).
Proof.
  intros Hf Ht Hc.
  destruct (update_first_split (fun x => String.eqb (tx_id x) (tx_id t))
              (set_tx_status disputed) _ t Ht (String.eqb_refl _))
    as (pre & x & post & Hl & Hpre & Hx & U).
  exists pre, x, post; split; [exact Hl|split; [apply String.eqb_eq, Hx|]].
  unfold open_dispute, transaction_find_by_id_and_update, handle, bind, ret, db.
  rewrite Hc, Hf, U; destruct w as [s fs n]; simpl in *; subst; reflexivity.
Qed.

(** Refunding is not guarded by the status: without storage failures, the
    first Transaction with that transaction id becomes [cancelled] whatever its
    status was, and nothing else changes; in particular its Commission keeps
    its status, [paid] included. *)
Theorem X_refund_any_status w t :
  faults w = [] -> In t (transactions (store w)) ->
  exists pre x post,
    transactions (store w) = pre ++ x :: post /\ transaction_id x = transaction_id t
    /\ admin_refund (transaction_id t) w
       = (ok (BSuccess None),
          set_store (set_transactions (pre ++ set_tx_status cancelled x :: post) (store w)) w).
Proof.
  intros Hf Ht.
  destruct (update_first_split (fun x => String.eqb (transaction_id x) (transaction_id t))
              (set_tx_status cancelled) _ t Ht (String.eqb_refl _))
    as (pre & x & post & Hl & Hpre & Hx & U).
  exists pre, x, post; split; [exact Hl|split; [apply String.eqb_eq, Hx|]].
  unfold admin_refund, transaction_find_one_and_update, handle, bind, ret, db.
  rewrite Hf, U; destruct w as [s fs n]; simpl in *; subst; reflexivity.
Qed.

(** Admin verification marks only the first Payment carrying the
    transaction id: without storage failures the payments after it are left
    as they were, so a second submitted payment stays unverified. *)
Theorem X_verify_first_payment_only w txid p :
  faults w = [] -> In p (payments (store w)) -> pay_transaction_id p = txid ->
  exists pre x post,
    payments (store w) = pre ++ x :: post /\ pay_transaction_id x = txid
    /\ (forall z, In z pre -> pay_transaction_id z <> txid)
    /\ admin_verify txid w
       = (ok (BSuccess None),
          set_store
            (set_transactions
               (snd (update_first (fun t => String.eqb (transaction_id t) txid)
                       (set_tx_status funded) (transactions (store w))))
               (set_payments (pre ++ set_verified true x :: post) (store w))) w).
Proof.
  intros Hf Hp Hid.
  destruct (update_first_split (fun x => String.eqb (pay_transaction_id x) txid)
              (set_verified true) _ p Hp) as (pre & x & post & Hl & Hpre & Hx & U);
    [apply String.eqb_eq, Hid|].
  exists pre, x, post; split; [exact Hl|split; [apply String.eqb_eq, Hx|split]].
  - intros z Hz E; rewrite <- String.eqb_eq in E; rewrite (Hpre z Hz) in E; discriminate.
  - unfold admin_verify, payment_find_one_and_update_verified, transaction_find_one_and_update,
      handle, bind, ret, db.
    rewrite Hf, U; destruct w as [s fs n]; simpl in *; subst; simpl.
    destruct (update_first _ (set_tx_status funded) (transactions s)); reflexivity.
Qed.

(** The admin routes with several writes are not atomic: when the second
    database call fails, the first write stays and the route answers 500.
    Verify leaves the payment verified and the transaction not funded, release
    leaves the transaction completed and the commission unpaid, delete leaves
    the payment deleted and the transaction and commission in place. *)
Theorem X_admin_routes_not_atomic w txid fs :
  faults w = false :: true :: fs ->
  admin_verify txid w
  = (fail 500 "Verify failed",
     mkWorld (set_payments (snd (update_first (fun p => String.eqb (pay_transaction_id p) txid)
                                   (set_verified true) (payments (store w)))) (store w))
             fs (now w))
  /\ admin_release txid w
  = (fail 500 "Release failed",
     mkWorld (set_transactions (snd (update_first (fun t => String.eqb (transaction_id t) txid)
                                       (set_tx_status completed) (transactions (store w))))
                               (store w))
             fs (now w))
  /\ admin_delete_payment txid w
  = (fail 500 "Failed to delete",
     mkWorld (set_payments (snd (delete_first (fun p => String.eqb (pay_transaction_id p) txid)
                                   (payments (store w)))) (store w))
             fs (now w)).
Proof.
  destruct w as [s fs0 n]; simpl; intros ->.
  unfold admin_verify, admin_release, admin_delete_payment,
    payment_find_one_and_update_verified, transaction_find_one_and_update,
    commission_find_one_and_update, payment_find_one_and_delete,
    transaction_find_one_and_delete, handle, bind, ret, db; simpl.
  destruct (update_first _ (set_verified true) (payments s));
  destruct (update_first _ (set_tx_status completed) (transactions s));
  destruct (delete_first _ (payments s)); repeat split.
Qed.

(** ** Creating transactions *)

(** Creating a transaction whose [buyer_id] is present but not an ObjectId
    (not 24 hexadecimal digits, and not 12 characters) fails the buyer lookup
    with a cast error: the route answers 500 and the world is unchanged. *)
Theorem X_create_bad_buyer_id req draw w b :
  req_buyer_id req = Some b -> String.length b <> 12%nat -> cast_object_id b = None ->
  js_string_truthy b && present_string (req_seller_phone req) && present_number (req_amount req) = true ->
  create_transaction req draw w = (fail 500 "Failed to create transaction", w).
Proof.
  destruct req as [b0 [sp|] [a|] d]; simpl; intros -> _ Hc H; try (rewrite andb_false_r in H; discriminate H).
  unfold create_transaction, handle, bind, user_find_by_id, throw; simpl.
  rewrite H, Hc; reflexivity.
Qed.

(** A created transaction keeps the submitted [buyer_id], takes its
    [buyer_phone] from the first user with that object id ("Unknown" when
    there is none), its id from [generateTxID] and the status
    [pending_payment]. *)
Theorem X_create_buyer_phone req draw w t :
  fst (create_transaction req draw w) = ok (BTransaction t) ->
  exists b oid, req_buyer_id req = Some b /\ buyer_id t = b /\ cast_object_id b = Some oid
    /\ buyer_phone t = match find (fun u => String.eqb (user_id u) oid) (users (store w)) with
                       | Some u => phone_number u
                       | None => "Unknown"
                       end
    /\ transaction_id t = generateTxID draw /\ status t = pending_payment.
Proof.
  destruct w as [[us ts ps cs n] fs tnow].
  destruct req as [b sp a d]; unfold create_transaction, handle; simpl.
  split_create.
  all: simpl in *; intros H; try discriminate H.
  all: injection H as <-; do 2 eexists; repeat split; eauto.
  all: simpl in *; match goal with E : find _ _ = _ |- _ => rewrite E end; reflexivity.
Qed.

(** When the generated transaction id is already taken, creating a
    transaction does not succeed and writes nothing: the unique index rejects
    the Transaction insert before the Commission is written. *)
Theorem X_create_id_collision req draw w :
  In (generateTxID draw) (map transaction_id (transactions (store w))) ->
  let '(r, w') := create_transaction req draw w in
  is_success r = false /\ store w' = store w.
Proof.
  destruct w as [[us ts ps cs n] fs tnow]; simpl; intros Hin.
  destruct req as [b sp a d]; unfold create_transaction, handle; simpl.
  split_create.
  all: simpl in *; try (split; reflexivity).
  all: match goal with
       | E : existsb _ _ = false |- _ => apply existsb_eqb_false in E; contradiction
       end.
Qed.

(** ** Generated ids *)

Lemma read_decimal_digit acc b d :
  (d < 10)%N -> read_decimal (String (ascii_of_N (48 + d)) acc) b = read_decimal acc (b * 10 + d).
Proof.
  intros Hd; cbn [read_decimal]; rewrite N_ascii_embedding by lia.
  f_equal; lia.
Qed.

Lemma read_decimal_aux fuel n acc a :
  (n < 10 ^ N.of_nat fuel)%N ->
  exists k, read_decimal (decimal_aux fuel n acc) a = read_decimal acc (a * 10 ^ k + n).
Proof.
  revert n acc a; induction fuel as [|fuel IH]; intros n acc a Hn; cbn [decimal_aux].
  - exists 0%N; simpl in Hn; f_equal; lia.
  - assert (Hm : (n mod 10 < 10)%N) by (apply N.mod_lt; lia).
    destruct (n <? 10)%N eqn:E.
    + apply N.ltb_lt in E; exists 1%N.
      rewrite read_decimal_digit by exact Hm.
      rewrite N.mod_small by exact E; f_equal; lia.
    + apply N.ltb_ge in E.
      destruct (IH (n / 10)%N (String (ascii_of_N (48 + n mod 10)) acc) a) as [k Hk].
      { apply N.Div0.div_lt_upper_bound; rewrite Nat2N.inj_succ, N.pow_succ_r' in Hn; lia. }
      exists (N.succ k); rewrite Hk, read_decimal_digit by exact Hm.
      f_equal; rewrite N.pow_succ_r'.
      pose proof (N.div_mod n 10 ltac:(lia)); lia.
Qed.

Lemma read_decimal_decimal n : (n < 10 ^ 32)%N -> read_decimal (decimal n) 0 = n.
Proof.
  intros Hn; destruct (read_decimal_aux 32 n "" 0 Hn) as [k Hk].
  unfold decimal; rewrite Hk; simpl; reflexivity.
Qed.

Lemma append_prefix_inj (p s s' : string) :
  String.append p s = String.append p s' -> s = s'.
Proof.
  induction p as [|c p IH]; simpl; [auto|].
  intros H; injection H as H; auto.
Qed.

Lemma decimal_aux_length fuel k n acc :
  (10 ^ N.of_nat k <= n)%N -> (n < 10 ^ N.of_nat (S k))%N -> (k < fuel)%nat ->
  String.length (decimal_aux fuel n acc) = (S k + String.length acc)%nat.
Proof.
  revert fuel n acc; induction k as [|k IH]; intros fuel n acc Hlo Hhi Hk;
    (destruct fuel as [|fuel]; [lia|]); cbn [decimal_aux].
  - simpl in Hhi; replace ((n <? 10)%N) with true by (symmetry; apply N.ltb_lt; lia).
    reflexivity.
  - rewrite Nat2N.inj_succ, N.pow_succ_r' in Hlo.
    rewrite Nat2N.inj_succ, N.pow_succ_r' in Hhi.
    assert (H10 : (1 <= 10 ^ N.of_nat k)%N).
    { change 1%N with (10 ^ 0)%N; apply N.pow_le_mono_r; lia. }
    replace ((n <? 10)%N) with false by (symmetry; apply N.ltb_ge; lia).
    rewrite (IH fuel); [simpl; lia | | | lia].
    + apply N.div_le_lower_bound; lia.
    + apply N.Div0.div_lt_upper_bound; rewrite Nat2N.inj_succ, N.pow_succ_r' in Hhi |- *; lia.
Qed.

(** [generateTxID] on a draw [d] in [0, 900000) is "KS1-" followed by six
    characters that read back as [100000 + d]; two draws give the same id only
    when they are equal. *)
Theorem X_generateTxID_injective d d' :
  (d < 900000)%N -> (d' < 900000)%N ->
  (exists s, generateTxID d = String.append "KS1-" s /\ String.length s = 6%nat
             /\ read_decimal s 0 = (100000 + d)%N)
  /\ (generateTxID d = generateTxID d' <-> d = d').
Proof.
  intros Hd Hd'; assert (H32 : (1000000 < 10 ^ 32)%N) by reflexivity; split.
  - exists (decimal (100000 + d)); split; [reflexivity|split].
    + unfold decimal; rewrite (decimal_aux_length 32 5); [reflexivity | | | lia].
      * change (10 ^ N.of_nat 5)%N with 100000%N; lia.
      * change (10 ^ N.of_nat 6)%N with 1000000%N; lia.
    + apply read_decimal_decimal; lia.
  - split; [|intros ->; reflexivity].
    unfold generateTxID; intros H; apply append_prefix_inj in H.
    apply (f_equal (fun s => read_decimal s 0)) in H.
    rewrite !read_decimal_decimal in H by lia; lia.
Qed.

Lemma hex_digit_ok d :
  (d < 16)%N -> is_hex_char (hex_digit d) = true /\ lower_hex_char (hex_digit d) = hex_digit d.
Proof.
  intros H.
  assert (E : exists k, (k < 16)%nat /\ d = N.of_nat k) by (exists (N.to_nat d); split; lia).
  destruct E as (k & Hk & ->).
  do 16 (destruct k as [|k]; [split; reflexivity|]); lia.
Qed.

Lemma hex_fixed_props k n acc :
  String.length (hex_fixed k n acc) = (k + String.length acc)%nat
  /\ all_chars is_hex_char (hex_fixed k n acc) = all_chars is_hex_char acc
  /\ map_chars lower_hex_char (hex_fixed k n acc) = hex_fixed k n (map_chars lower_hex_char acc).
Proof.
  revert n acc; induction k as [|k IH]; intros n acc; cbn [hex_fixed]; [auto|].
  destruct (hex_digit_ok (n mod 16)) as [H1 H2]; [apply N.mod_lt; lia|].
  destruct (IH (n / 16)%N (String (hex_digit (n mod 16)) acc)) as (E1 & E2 & E3).
  rewrite E1, E2, E3; simpl; rewrite H1, H2; repeat split; lia.
Qed.

(** Every object id the store assigns passes the ObjectId cast unchanged. *)
Lemma new_object_id_casts n : cast_object_id (new_object_id n) = Some (new_object_id n).
Proof.
  unfold cast_object_id, new_object_id.
  destruct (hex_fixed_props 24 n "") as (E1 & E2 & E3).
  rewrite E1, E2, E3; reflexivity.
Qed.

Lemma lower_hex_char_props c :
  lower_hex_char (lower_hex_char c) = lower_hex_char c
  /\ (is_hex_char c = true -> is_hex_char (lower_hex_char c) = true).
Proof.
  destruct c as [[] [] [] [] [] [] [] []]; split; (reflexivity || discriminate || auto).
Qed.

Lemma map_chars_length f s : String.length (map_chars f s) = String.length s.
Proof. induction s as [|c s IH]; simpl; auto. Qed.

Lemma map_lower_hex s :
  all_chars is_hex_char s = true -> all_chars is_hex_char (map_chars lower_hex_char s) = true.
Proof.
  induction s as [|c s IH]; simpl; [auto|]; intros H.
  apply andb_prop in H; destruct H as [Hc Hs].
  rewrite (proj2 (lower_hex_char_props c) Hc); simpl; auto.
Qed.

Lemma map_lower_idem s :
  map_chars lower_hex_char (map_chars lower_hex_char s) = map_chars lower_hex_char s.
Proof.
  induction s as [|c s IH]; simpl; [reflexivity|].
  rewrite (proj1 (lower_hex_char_props c)), IH; reflexivity.
Qed.

(** The ObjectId cast is idempotent: a cast id (lowercase hexadecimal)
    casts to itself. *)
Lemma cast_object_id_idempotent s o :
  cast_object_id s = Some o -> cast_object_id o = Some o.
Proof.
  unfold cast_object_id.
  destruct ((String.length s =? 24)%nat && all_chars is_hex_char s) eqn:E; [|discriminate].
  intros H; injection H as <-; apply andb_prop in E; destruct E as [El Eh].
  rewrite map_chars_length, El, map_lower_hex, map_lower_idem by exact Eh; reflexivity.
Qed.

(** ** The other server versions *)

(** All three registration routes answer 400 and leave the world unchanged
    when [phone_number] or [password] is missing or empty. *)
Theorem X_register_missing phone pw hashed w :
  present_string phone && present_string pw = false ->
  register phone pw hashed w = (fail 400 "Missing fields", w)
  /\ ServerJs.register phone pw hashed w = (fail 400 "Phone and password required.", w)
  /\ SecondServer.register phone pw hashed w = (fail 400 "Phone and password required.", w).
Proof.
  destruct phone as [p|], pw as [q|]; simpl; intros H;
    unfold register, ServerJs.register, SecondServer.register, handle, ret;
    try rewrite H; repeat split.
Qed.

Lemma user_create_cases p hashed w :
  user_create p hashed w =
  match faults w with
  | true :: fs => (inl StorageError, set_faults fs w)
  | fs => if existsb (fun u => String.eqb (phone_number u) p) (users (store w))
          then (inl DuplicateKey, set_faults (tl fs) w)
          else (inr (mkUser (new_object_id (next_oid (store w))) p hashed (now w)),
                set_store (bump_oid (set_users (users (store w) ++
                   [mkUser (new_object_id (next_oid (store w))) p hashed (now w)]) (store w)))
                  (set_faults (tl fs) w))
  end.
Proof.
  unfold user_create, bind, get_now, db; simpl.
  destruct (faults w) as [|[] fs]; simpl; try reflexivity; destruct (existsb _ _); reflexivity.
Qed.

(** [src/server.js] registration, with both fields present: a storage
    failure answers 500, a registered phone number 400 "Phone number already
    exists.", both leaving the store unchanged; otherwise one user with the
    phone number and the hash is appended. *)
Theorem X_serverjs_register p q hashed w :
  js_string_truthy p = true -> js_string_truthy q = true ->
  let '(r, w') := ServerJs.register (Some p) (Some q) hashed w in
  (hd false (faults w) = true -> r = fail 500 "Server error during registration." /\ store w' = store w)
  /\ (hd false (faults w) = false -> In p (map phone_number (users (store w))) ->
      r = fail 400 "Phone number already exists." /\ store w' = store w)
  /\ (hd false (faults w) = false -> ~ In p (map phone_number (users (store w))) ->
      is_success r = true
      /\ exists u, users (store w') = users (store w) ++ [u] /\ phone_number u = p /\ password u = hashed).
Proof.
  intros Hp Hq; unfold ServerJs.register, handle, bind, ret; simpl; rewrite Hp, Hq; simpl.
  rewrite user_create_cases.
  destruct w as [s fs n]; simpl.
  destruct fs as [|[] fs]; simpl; [| repeat split; discriminate |];
    (destruct (existsb _ (users s)) eqn:E;
     [ pose proof (proj1 (existsb_eqb_iff phone_number (users s) p) E)
     | pose proof (existsb_eqb_false phone_number (users s) p E) ]);
    simpl; repeat split; try discriminate; try tauto; eexists; repeat split.
Qed.

(** Registration of the second server, with both fields present: every
    answer other than success is the same 400 "Phone number already exists or
    invalid data." with the store unchanged, storage failures included; it
    succeeds exactly when the database call does not fail and the number is
    new. *)
Theorem X_second_server_register p q hashed w :
  js_string_truthy p = true -> js_string_truthy q = true ->
  let '(r, w') := SecondServer.register (Some p) (Some q) hashed w in
  (is_success r = false ->
   r = fail 400 "Phone number already exists or invalid data." /\ store w' = store w)
  /\ (is_success r = true <-> hd false (faults w) = false /\ ~ In p (map phone_number (users (store w)))).
Proof.
  intros Hp Hq; unfold SecondServer.register, handle, bind, ret; simpl; rewrite Hp, Hq; simpl.
  rewrite user_create_cases.
  destruct w as [s fs n]; simpl.
  destruct fs as [|[] fs]; simpl;
    [| repeat split; try discriminate; intros [H _]; discriminate H |];
    (destruct (existsb _ (users s)) eqn:E;
     [ pose proof (proj1 (existsb_eqb_iff phone_number (users s) p) E)
     | pose proof (existsb_eqb_false phone_number (users s) p E) ]);
    simpl; repeat split; try discriminate; try tauto; intros [_ H']; tauto.
Qed.

Lemma find_registered (phone : string) (l : list User) :
  In phone (map phone_number l) ->
  exists u, find (fun u => String.eqb (phone_number u) phone) l = Some u /\ phone_number u = phone.
Proof.
  intros Hin; apply in_map_iff in Hin as (u0 & Hu0 & Hin).
  destruct (find (fun u => String.eqb (phone_number u) phone) l) as [u|] eqn:E.
  - exists u; split; [reflexivity|]; apply find_some in E as [_ E]; apply String.eqb_eq, E.
  - pose proof (find_none _ _ E u0 Hin) as H; simpl in H.
    rewrite Hu0, String.eqb_refl in H; discriminate.
Qed.

(** [src/server.js] login, without a storage failure and other than the
    [admin] pair, tells the cases apart: an unregistered phone number gets
    401 "User not found.", a registered one with a wrong password 401
    "Invalid password."; the store is unchanged. *)
Theorem X_serverjs_login_messages cmp phone pw w :
  ~ (phone = "admin" /\ pw = "admin123") -> hd false (faults w) = false ->
  let '(r, w') := ServerJs.login cmp phone pw w in
  store w' = store w
  /\ (~ In phone (map phone_number (users (store w))) -> r = fail 401 "User not found.")
  /\ (In phone (map phone_number (users (store w))) -> is_success r = false ->
      r = fail 401 "Invalid password.").
Proof.
  intros Hadm Hf; unfold ServerJs.login, handle.
  destruct (String.eqb phone "admin" && String.eqb pw "admin123") eqn:E.
  { apply andb_prop in E; destruct E as [E1 E2]; apply String.eqb_eq in E1, E2; tauto. }
  unfold bind, user_find_one_by_phone, db, ret.
  destruct w as [s fs n]; simpl in *.
  destruct fs as [|[] fs]; try discriminate Hf; simpl;
    (destruct (find _ (users s)) as [u|] eqn:F; [destruct (cmp pw (password u)) eqn:C| ]);
    simpl; (split; [reflexivity|split]); intros Hin.
  all: try (exfalso; apply Hin; apply find_some in F as [F1 F2];
            apply String.eqb_eq in F2; rewrite <- F2; apply in_map, F1).
  all: try reflexivity.
  all: try (intros H; discriminate H).
  all: exfalso; destruct (find_registered phone (users s) Hin) as (u0 & Eu & _); congruence.
Qed.

(** Login of the first server, without a storage failure and other than the
    [admin] pair, answers every failure with the same 401 "Invalid
    credentials", whether the phone number is registered or not; the store is
    unchanged. *)
Theorem X_login_uniform_message cmp phone pw w :
  ~ (phone = "admin" /\ pw = "admin123") -> hd false (faults w) = false ->
  let '(r, w') := login cmp phone pw w in
  store w' = store w /\ (is_success r = false -> r = fail 401 "Invalid credentials").
Proof.
  intros Hadm Hf; rewrite login_not_admin by exact Hadm.
  unfold handle, bind, user_find_one_by_phone, db, ret.
  destruct w as [s fs n]; simpl in *.
  destruct fs as [|[] fs]; try discriminate Hf; simpl;
    (destruct (find _ _) as [u|]; [destruct (cmp pw (password u))|]);
    simpl; split; try reflexivity; intros H; try discriminate H; reflexivity.
Qed.

(** [src/server.js] payment submission: a missing or empty transaction id
    or MoMo reference answers 400 with the world unchanged.  Otherwise a
    storage failure answers 500 with the store unchanged, and success appends
    one unverified Payment with both values. *)
Theorem X_serverjs_submit_payment txid momo w :
  let '(r, w') := ServerJs.submit_payment txid momo w in
  (present_string txid && present_string momo = false -> r = fail 400 "Missing details." /\ w' = w)
  /\ (present_string txid && present_string momo = true ->
      (hd false (faults w) = true -> r = fail 500 "Failed to submit payment." /\ store w' = store w)
      /\ (hd false (faults w) = false ->
          r = ok (BSuccess (Some "Payment submitted for verification."))
          /\ exists p, payments (store w') = payments (store w) ++ [p]
               /\ Some (pay_transaction_id p) = txid /\ momo_reference p = momo
               /\ verified p = false)).
Proof.
  unfold ServerJs.submit_payment, handle, payment_create, bind, get_now, throw, ret, db.
  destruct w as [s fs n].
  destruct txid as [i|], momo as [m|]; simpl;
    try (destruct (js_string_truthy i) eqn:Ei); try (destruct (js_string_truthy m) eqn:Em);
    simpl; (destruct fs as [|[] fs]; simpl);
    (split; [intros H; try discriminate H; split; reflexivity|intros H; try discriminate H]).
  all: split; intros Hf; try discriminate Hf; split; try reflexivity; eexists; repeat split.
Qed.

(** Payment submission of the first server: a missing or empty transaction
    id fails Mongoose validation and answers 500 with the world unchanged.
    With a transaction id and no storage failure, it appends an unverified
    Payment whatever the MoMo reference is, a missing one included. *)
Theorem X_submit_payment_unchecked txid momo w :
  let '(r, w') := submit_payment txid momo w in
  (present_string txid = false -> r = fail 500 "Payment submit failed" /\ w' = w)
  /\ (present_string txid = true -> hd false (faults w) = false ->
      r = ok (BSuccess None)
      /\ exists p, payments (store w') = payments (store w) ++ [p]
           /\ Some (pay_transaction_id p) = txid /\ momo_reference p = momo
           /\ verified p = false).
Proof.
  unfold submit_payment, handle, payment_create, bind, get_now, throw, ret, db.
  destruct w as [s fs n].
  destruct txid as [i|]; simpl; try (destruct (js_string_truthy i) eqn:Ei);
    simpl; (destruct fs as [|[] fs]; simpl);
    (split; [intros H; try discriminate H; split; reflexivity|intros H Hf; try discriminate H]).
  all: try discriminate Hf; split; try reflexivity; eexists; repeat split.
Qed.

(** Phone numbers stay unique: from a store whose users have distinct phone
    numbers, every run of requests keeps them distinct. *)
Theorem X_phones_unique cmp ops w :
  phones_unique (store w) -> phones_unique (store (run cmp ops w)).
Proof. apply keeps_run, phones_unique_route. Qed.

(** Transaction ids stay unique: from a store whose transactions have
    distinct ids, every run of requests keeps them distinct. *)
Theorem X_txids_unique cmp ops w :
  txids_unique (store w) -> txids_unique (store (run cmp ops w)).
Proof. apply keeps_run, txids_unique_route. Qed.

(** Every stored Transaction's fee is
    [parseFloat((amount * 0.01).toFixed(2))] of its amount: from a store where
    this holds, every run of requests keeps it. *)
Theorem X_fees_consistent cmp ops w :
  fees_consistent (store w) -> fees_consistent (store (run cmp ops w)).
Proof. apply keeps_run, fees_consistent_route. Qed.

(** ** Witnesses of the further properties *)

Lemma X_register_outcome_witness :
  let '(r, w') := register (Some "0555000000") (Some "secret") "h1" (start []) in
  code r <> 500
  /\ (is_success r = true <-> hd false (faults (start [])) = false
                             /\ ~ In "0555000000" (map phone_number (users (store (start []))))).
Proof.
  pose proof (X_register_outcome "0555000000" "secret" "h1" (start []) eq_refl eq_refl) as H.
  destruct (register _ _ _ _) as [r w']; destruct H as (H1 & H2 & _); split; assumption.
Defined.

Lemma X_register_then_login_witness :
  fst (login (fun a b => String.eqb a b) "0555000000" "secret"
         (snd (register (Some "0555000000") (Some "secret") "secret" (start []))))
  = ok (BLoginUser (new_object_id 0) "0555000000").
Proof.
  apply (X_register_then_login (fun a b => String.eqb a b) "0555000000" "secret" "secret"
           "secret" (start [])); try reflexivity.
  - simpl; tauto.
  - intros [H _]; discriminate H.
Defined.

Lemma X_phones_unique_witness :
  phones_unique (store (run no_login
                          [OpRegister (Some "0555000000") (Some "a") "h1";
                           OpRegister (Some "0555000000") (Some "b") "h2"] (start []))).
Proof. apply X_phones_unique; constructor. Defined.

Lemma X_txids_unique_witness :
  txids_unique (store (run no_login
                         [OpCreateTransaction (order_request js_1000) 0;
                          OpCreateTransaction (order_request js_1_5) 0] (start []))).
Proof. apply X_txids_unique; constructor. Defined.

Lemma X_fees_consistent_witness :
  fees_consistent (store (run no_login verify_run (start []))).
Proof. apply X_fees_consistent; intros t []. Defined.

Lemma X_malformed_id_witness :
  confirm_delivery "abc" sample_world = (fail 500 "Confirm failed", sample_world)
  /\ open_dispute "abc" sample_world = (fail 500 "Dispute failed", sample_world).
Proof. apply X_malformed_id; [discriminate | reflexivity]. Defined.

Lemma X_dispute_any_status_witness :
  exists pre x post,
    transactions (store sample_world) = pre ++ x :: post /\ tx_id x = tx_id sample_tx
    /\ open_dispute (tx_id sample_tx) sample_world
       = (ok (BSuccess None),
          set_store (set_transactions (pre ++ set_tx_status disputed x :: post)
                       (store sample_world)) sample_world).
Proof.
  apply X_dispute_any_status; [reflexivity | vm_compute; left; reflexivity | vm_compute; reflexivity].
Defined.

Lemma X_refund_any_status_witness :
  exists pre x post,
    transactions (store sample_world) = pre ++ x :: post
    /\ transaction_id x = transaction_id sample_tx
    /\ admin_refund (transaction_id sample_tx) sample_world
       = (ok (BSuccess None),
          set_store (set_transactions (pre ++ set_tx_status cancelled x :: post)
                       (store sample_world)) sample_world).
Proof. apply X_refund_any_status; [reflexivity | vm_compute; left; reflexivity]. Defined.

Lemma X_verify_first_payment_only_witness :
  let w := run no_login
             [OpCreateTransaction (order_request js_1000) 0;
              OpSubmitPayment (Some "KS1-100000") (Some "MOMO1");
              OpSubmitPayment (Some "KS1-100000") (Some "MOMO2")] (start []) in
  exists pre x post,
    payments (store w) = pre ++ x :: post /\ pay_transaction_id x = "KS1-100000"
    /\ (forall z, In z pre -> pay_transaction_id z <> "KS1-100000")
    /\ admin_verify "KS1-100000" w
       = (ok (BSuccess None),
          set_store
            (set_transactions
               (snd (update_first (fun t => String.eqb (transaction_id t) "KS1-100000")
                       (set_tx_status funded) (transactions (store w))))
               (set_payments (pre ++ set_verified true x :: post) (store w))) w).
Proof.
  intros w.
  apply (X_verify_first_payment_only w "KS1-100000"
           (mkPayment (new_object_id 2) "KS1-100000" (Some "MOMO1") false 0));
    [reflexivity | vm_compute; left; reflexivity | reflexivity].
Defined.

Lemma X_admin_routes_not_atomic_witness :
  admin_release "KS1-100000" (mkWorld (store sample_world) [false; true] 0)
  = (fail 500 "Release failed",
     mkWorld (set_transactions
                (snd (update_first (fun t => String.eqb (transaction_id t) "KS1-100000")
                        (set_tx_status completed) (transactions (store sample_world))))
                (store sample_world)) [] 0).
Proof.
  exact (proj1 (proj2 (X_admin_routes_not_atomic
                         (mkWorld (store sample_world) [false; true] 0) "KS1-100000" [] eq_refl))).
Defined.

Lemma X_create_bad_buyer_id_witness :
  create_transaction (mkCreateRequest (Some "buyer-1") (Some "0240000000") (Some js_1000) None)
    0 (start []) = (fail 500 "Failed to create transaction", start []).
Proof.
  apply (X_create_bad_buyer_id _ 0 (start []) "buyer-1"); [reflexivity | discriminate | reflexivity | reflexivity].
Defined.

Lemma X_create_buyer_phone_witness :
  exists b oid, req_buyer_id (order_request js_1000) = Some b /\ buyer_id sample_tx = b
    /\ cast_object_id b = Some oid
    /\ buyer_phone sample_tx
       = match find (fun u => String.eqb (user_id u) oid) (users (store (start []))) with
         | Some u => phone_number u
         | None => "Unknown"
         end
    /\ transaction_id sample_tx = generateTxID 0 /\ status sample_tx = pending_payment.
Proof.
  apply (X_create_buyer_phone (order_request js_1000) 0 (start [])).
  vm_compute; reflexivity.
Defined.

Lemma X_create_id_collision_witness :
  let '(r, w') := create_transaction (order_request js_1000) 0 sample_world in
  is_success r = false /\ store w' = store sample_world.
Proof. apply X_create_id_collision; vm_compute; left; reflexivity. Defined.

Lemma X_generateTxID_injective_witness :
  (exists s, generateTxID 7 = String.append "KS1-" s /\ String.length s = 6%nat
             /\ read_decimal s 0 = (100000 + 7)%N)
  /\ (generateTxID 7 = generateTxID 8 <-> 7%N = 8%N).
Proof. apply X_generateTxID_injective; lia. Defined.

Lemma X_register_missing_witness :
  register None (Some "secret") "h1" (start []) = (fail 400 "Missing fields", start [])
  /\ ServerJs.register None (Some "secret") "h1" (start [])
     = (fail 400 "Phone and password required.", start [])
  /\ SecondServer.register None (Some "secret") "h1" (start [])
     = (fail 400 "Phone and password required.", start []).
Proof. apply X_register_missing; reflexivity. Defined.

Lemma X_serverjs_register_witness :
  let '(r, w') := ServerJs.register (Some "0555000000") (Some "secret") "h1" sample_world in
  is_success r = true
  /\ exists u, users (store w') = users (store sample_world) ++ [u]
       /\ phone_number u = "0555000000" /\ password u = "h1".
Proof.
  pose proof (X_serverjs_register "0555000000" "secret" "h1" sample_world eq_refl eq_refl) as H.
  destruct (ServerJs.register _ _ _ _) as [r w']; destruct H as (_ & _ & H).
  apply H; [reflexivity | simpl; tauto].
Defined.

Lemma X_second_server_register_witness :
  let '(r, w') := SecondServer.register (Some "0555000000") (Some "secret") "h1"
                    (mkWorld empty_store [true] 0) in
  r = fail 400 "Phone number already exists or invalid data." /\ store w' = empty_store.
Proof.
  pose proof (X_second_server_register "0555000000" "secret" "h1"
                (mkWorld empty_store [true] 0) eq_refl eq_refl) as H.
  destruct (SecondServer.register _ _ _ _) as [r w'] eqn:E; destruct H as (H & _).
  vm_compute in E; injection E as <- <-; apply H; reflexivity.
Defined.

Lemma X_serverjs_login_messages_witness :
  let '(r, w') := ServerJs.login no_login "0555000000" "secret" (start []) in
  store w' = empty_store /\ r = fail 401 "User not found.".
Proof.
  pose proof (X_serverjs_login_messages no_login "0555000000" "secret" (start [])) as H.
  destruct (ServerJs.login _ _ _ _) as [r w'].
  destruct H as (H1 & H2 & _); [intros [E _]; discriminate E | reflexivity |].
  split; [exact H1 | apply H2; simpl; tauto].
Defined.

Lemma X_login_uniform_message_witness :
  let '(r, w') := login no_login "0555000000" "secret" (start []) in
  store w' = empty_store /\ r = fail 401 "Invalid credentials".
Proof.
  pose proof (X_login_uniform_message no_login "0555000000" "secret" (start [])) as H.
  destruct (login _ _ _ _) as [r w'] eqn:E.
  destruct H as (H1 & H2); [intros [E' _]; discriminate E' | reflexivity |].
  split; [exact H1 | apply H2].
  vm_compute in E; injection E as <- <-; reflexivity.
Defined.
